(** * NYC housing price predictor: frequency encoder and inference pipeline

    A shallow embedding of [script/utils.py] (the [FrequencyEncoder]),
    [script/config.py] (the constants) and [script/predict.py] (model cache,
    feature preparation, single and batch prediction, price categories),
    followed by the properties of the specification that concern them. *)

From Stdlib Require Import QArith Qcanon Ascii String.
From stdpp Require Import numbers pretty strings gmap fin_maps list.

Local Open Scope string_scope.

(** ** Python values held in table cells

    A cell of a pandas frame holds a Python object.  Strings compare by
    content; numbers compare by value ([1 == 1.0]), so one constructor with
    the canonical rational value covers [int] and finite [float] alike;
    [CNull] is the missing value ([None] / [NaN]), which pandas never counts
    and never finds in a mapping built by [value_counts]. *)
Inductive Cell :=
  | CStr (s : string)
  | CNum (q : Qc)
  | CNull.

(** Column labels: names ([str]) or the integer positions of a [RangeIndex]. *)
Inductive Label :=
  | Name (s : string)
  | Pos (i : nat).

Global Instance Cell_eq_dec : EqDecision Cell.
Proof. solve_decision. Defined.

Global Instance Label_eq_dec : EqDecision Label.
Proof. solve_decision. Defined.

Global Instance Cell_countable : Countable Cell.
Proof.
  refine (inj_countable'
    (λ c, match c with
          | CStr s => inl s
          | CNum q => inr (inl q)
          | CNull => inr (inr ())
          end)
    (λ x, match x with
          | inl s => CStr s
          | inr (inl q) => CNum q
          | inr (inr _) => CNull
          end) _).
  by intros [].
Defined.

Global Instance Label_countable : Countable Label.
Proof.
  refine (inj_countable'
    (λ l, match l with Name s => inl s | Pos i => inr i end)
    (λ x, match x with inl s => Name s | inr i => Pos i end) _).
  by intros [].
Defined.

(** The number [n] as a cell (a count written into a frame). *)
Definition cell_of_count (n : nat) : Cell := CNum (Qc_of_Z (Z.of_nat n)).

(** ** Exceptions and results *)
Inductive PyError :=
  | ValueError (msg : string)
  | KeyError (msg : string)
  | IndexError (msg : string)
  | AttributeError (msg : string)
  | RaisedByModel (what : string)
  | RaisedByLoad (what : string).

Inductive Result (A : Type) :=
  | Ok (a : A)
  | Raise (e : PyError).
Global Arguments Ok {A} a.
Global Arguments Raise {A} e.

Global Instance Result_ret : MRet Result := λ A a, Ok a.
Global Instance Result_bind : MBind Result := λ A B f r,
  match r with Ok a => f a | Raise e => Raise e end.
Global Instance Result_fmap : FMap Result := λ A B f r,
  match r with Ok a => Ok (f a) | Raise e => Raise e end.

(** ** Frames and arrays

    Both are kept column by column.  [df_len] and [nd_len] are the row
    counts (they survive a frame without columns).  Frames are those pandas
    builds by default: column labels are unique.  The theorems that depend
    on it say so ([NoDup (columns df)]). *)
Record DataFrame := {
  df_len : nat;
  df_data : list (Label * list Cell)
}.

Record NDArray := {
  nd_len : nat;
  nd_cols : list (list Cell)
}.

(** What scikit-learn may hand to an estimator: a frame (it has [.columns])
    or a bare 2-d array. *)
Inductive Batch :=
  | Frame (df : DataFrame)
  | Array (a : NDArray).

Definition columns (df : DataFrame) : list Label := (df_data df).*1.

(** [df.values] *)
Definition values (df : DataFrame) : NDArray :=
  {| nd_len := df_len df; nd_cols := (df_data df).*2 |}.

(** [X.shape[1]] *)
Definition shape1 (a : NDArray) : nat := length (nd_cols a).

(** The default column labels [0 .. k-1]. *)
Definition RangeIndex (k : nat) : list Label := Pos <$> seq 0 k.

(** The cell in row [i], column position [j]. *)
Definition cell_at (a : NDArray) (i j : nat) : option Cell :=
  nd_cols a !! j ≫= (.!! i).

(** The array behind a batch. *)
Definition batch_values (X : Batch) : NDArray :=
  match X with Frame df => values df | Array a => a end.

(** [pd.DataFrame(X, columns=names)]: [names = None] gives the default
    [RangeIndex]; a list of the wrong length is refused, with the two
    shapes in the message. *)
Definition pd_DataFrame (a : NDArray) (names : option (list Label))
  : Result DataFrame :=
  match names with
  | None =>
      Ok {| df_len := nd_len a;
            df_data := zip (RangeIndex (shape1 a)) (nd_cols a) |}
  | Some ns =>
      if decide (length ns = shape1 a)
      then Ok {| df_len := nd_len a; df_data := zip ns (nd_cols a) |}
      else Raise (ValueError
                    ("Shape of passed values is (" +:+ pretty (nd_len a) +:+
                     ", " +:+ pretty (shape1 a) +:+ "), indices imply (" +:+
                     pretty (nd_len a) +:+ ", " +:+ pretty (length ns) +:+
                     ")"))
  end.

(** [Series.value_counts()]: how often each value occurs; missing values are
    dropped ([dropna=True]).  [.to_dict()] is the identity here. *)
Definition value_counts (s : list Cell) : gmap Cell nat :=
  foldr (λ c m, match c with
                | CNull => m
                | _ => <[c := S (default 0 (m !! c))]> m
                end) ∅ s.

(** How many rows of a column hold the value [v]. *)
Definition times_seen (v : Cell) (s : list Cell) : nat :=
  length (filter (λ c, c = v) s).

(** ** [script/utils.py] *)
Module utils.

Record FrequencyEncoder := {
  handle_unknown : string;
  frequency_maps_ : gmap Label (gmap Cell nat);
  feature_names_in_ : option (list Label)
}.

(** [FrequencyEncoder.__init__] *)
Definition __init__ (handle_unknown : string) : FrequencyEncoder :=
  {| handle_unknown := handle_unknown;
     frequency_maps_ := ∅;
     feature_names_in_ := None |}.

(** The frame [fit] works on: [X] itself, or [pd.DataFrame(X)]. *)
Definition fit_frame (X : Batch) : DataFrame :=
  match X with
  | Frame df => df
  | Array a =>
      {| df_len := nd_len a;
         df_data := zip (RangeIndex (shape1 a)) (nd_cols a) |}
  end.

(** The names [fit] records in [feature_names_in_]. *)
Definition fit_names (X : Batch) : list Label :=
  match X with
  | Frame df => columns df
  | Array a => (λ i : nat, Name ("feature_" +:+ pretty i)) <$> seq 0 (shape1 a)
  end.

(** The loop of [fit]: [self.frequency_maps_[col] = value_counts.to_dict()]
    for each column in turn, on top of the tables already there. *)
Definition fit_columns (maps : gmap Label (gmap Cell nat))
    (cols : list (Label * list Cell)) : gmap Label (gmap Cell nat) :=
  foldl (λ m col, <[col.1 := value_counts col.2]> m) maps cols.

(** [FrequencyEncoder.fit], on a batch whose column labels are unique (a
    bare array always is one).  A frame that repeats a label is outside
    this model: there [df[col]] is a frame, pandas refuses its
    [value_counts()] and [fit] raises.  The statements that say which
    table [fit] stores for a column carry [NoDup] of the labels. *)
Definition fit (self : FrequencyEncoder) (X : Batch) : FrequencyEncoder :=
  {| handle_unknown := handle_unknown self;
     frequency_maps_ :=
       fit_columns (frequency_maps_ self) (df_data (fit_frame X));
     feature_names_in_ := Some (fit_names X) |}.

(** The frame [transform] works on: a copy of [X], or
    [pd.DataFrame(X, columns=self.feature_names_in_)]. *)
Definition transform_frame (self : FrequencyEncoder) (X : Batch)
  : Result DataFrame :=
  match X with
  | Frame df => Ok df
  | Array a => pd_DataFrame a (feature_names_in_ self)
  end.

(** The value [fillna] puts where the mapping found nothing. *)
Definition fill_value (self : FrequencyEncoder) : nat :=
  if decide (handle_unknown self = "zero") then 0 else 1.

(** [series.map(frequency_map).fillna(k)] on one cell.  The cell is looked
    up as the value it is.  pandas does so when the table's keys and the
    column have the same dtype, and whenever their numbers are held alike
    by [int64] and [float64]; between an [int64] and a [float64] column it
    casts first, which merges integers beyond 2^53.  Statements that
    compare a column with another column's table ask for [cast_exact]
    numbers. *)
Definition map_fillna (frequency_map : gmap Cell nat) (k : nat) (c : Cell)
  : Cell :=
  cell_of_count (default k (frequency_map !! c)).

(** One round of the loop of [transform] on the column labelled [col]. *)
Definition transform_column (self : FrequencyEncoder)
    (col : Label * list Cell) : Label * list Cell :=
  match frequency_maps_ self !! col.1 with
  | Some frequency_map =>
      (col.1, map_fillna frequency_map (fill_value self) <$> col.2)
  | None => col
  end.

(** [FrequencyEncoder.transform], on a batch whose frame has unique column
    labels.  A frame that repeats a fitted label is outside this model:
    there [df[col]] is a frame and [.map(frequency_map)] raises.  The
    statements that say what [transform] writes in a fitted column carry
    [NoDup] of the labels. *)
Definition transform (self : FrequencyEncoder) (X : Batch) : Result NDArray :=
  df ← transform_frame self X;
  Ok (values {| df_len := df_len df;
                df_data := transform_column self <$> df_data df |}).

(** [FrequencyEncoder.get_feature_names_out]; [None] stands for
    [np.array(None)], what an encoder that was never fitted hands back. *)
Definition get_feature_names_out (self : FrequencyEncoder)
    (input_features : option (list Label)) : option (list Label) :=
  match input_features with
  | None => feature_names_in_ self
  | Some names => Some names
  end.

(** [encoder.fit(X)] followed by [encoder.transform(X)] on the same batch,
    as [TransformerMixin.fit_transform] and [tests/test_system.py] do. *)
Definition fit_transform (self : FrequencyEncoder) (X : Batch)
  : FrequencyEncoder * Result NDArray :=
  let self := fit self X in (self, transform self X).

(** The encoder after a series of [fit] calls on a fresh object. *)
Definition fit_all (policy : string) (Xs : list Batch) : FrequencyEncoder :=
  foldl fit (__init__ policy) Xs.

End utils.

(** ** Python floats

    A finite float is a rational; the comparisons below are exact, so the
    rationals stand for every finite value.  Infinities and NaN are kept. *)
Inductive pyfloat :=
  | FNum (q : Qc)
  | FInf (negative : bool)
  | FNaN.

(** [x < n] for a float [x] and an integer [n]: false whenever [x] is NaN. *)
Definition float_lt (x : pyfloat) (n : Z) : bool :=
  match x with
  | FNum q => bool_decide (q < Qc_of_Z n)%Qc
  | FInf negative => negative
  | FNaN => false
  end.

(** [x >= n], again false on NaN. *)
Definition float_ge (x : pyfloat) (n : Z) : bool :=
  match x with
  | FNum q => bool_decide (Qc_of_Z n ≤ q)%Qc
  | FInf negative => negb negative
  | FNaN => false
  end.

(** ** [repr] of strings and lists of strings (used in error messages)

    Names are ASCII; a byte above 0x7f stands for a printable character and
    is kept as it is. *)
Definition hex_digit (n : nat) : ascii :=
  match n with
  | 0 => "0" | 1 => "1" | 2 => "2" | 3 => "3" | 4 => "4" | 5 => "5"
  | 6 => "6" | 7 => "7" | 8 => "8" | 9 => "9" | 10 => "a" | 11 => "b"
  | 12 => "c" | 13 => "d" | 14 => "e" | _ => "f"
  end%char.

(** The double-quote character, code 34. *)
Definition double_quote : ascii := ascii_of_nat 34.

Definition contains_char (c : ascii) (s : string) : bool :=
  bool_decide (c ∈ list_ascii_of_string s).

Definition repr_char (quote c : ascii) : string :=
  let n := nat_of_ascii c in
  if bool_decide (c = quote) || bool_decide (c = "\"%char)
  then String "\"%char (String c "")
  else if bool_decide (n = 9) then "\t"
  else if bool_decide (n = 10) then "\n"
  else if bool_decide (n = 13) then "\r"
  else if bool_decide (n < 32) || bool_decide (n = 127)
  then String "\"%char (String "x"%char
         (String (hex_digit (n / 16)) (String (hex_digit (n mod 16)) "")))
  else String c "".

Fixpoint repr_body (quote : ascii) (s : string) : string :=
  match s with
  | "" => ""
  | String c s' => repr_char quote c +:+ repr_body quote s'
  end.

(** [repr(s)] for a [str]. *)
Definition repr_str (s : string) : string :=
  let quote :=
    if contains_char "'"%char s && negb (contains_char double_quote s)
    then double_quote else "'"%char in
  String quote (repr_body quote s) +:+ String quote "".

Fixpoint join (sep : string) (l : list string) : string :=
  match l with
  | [] => ""
  | [s] => s
  | s :: l' => s +:+ sep +:+ join sep l'
  end.

(** [repr(l)] for a list of [str]. *)
Definition repr_list (l : list string) : string :=
  "[" +:+ join ", " (repr_str <$> l) +:+ "]".

(** ** [script/config.py] *)
Module config.

Definition ENABLE_CACHING : bool := true.

Definition EXPECTED_FEATURES : list string :=
  ["brokertitle"; "type"; "beds"; "bath"; "propertysqft"; "sublocality"].

Definition PRICE_RANGES : gmap string Z :=
  {[ "budget" := 400000%Z; "mid" := 1000000%Z; "luxury" := 2000000%Z ]}.

End config.

(** ** [script/predict.py] *)
Module predict.

(** The persisted pipeline is opaque: all that is used of it is [predict],
    from a frame to one float per row, or an exception. *)
Record Model := {
  predict : DataFrame → Result (list pyfloat)
}.

(** The persisted metadata dictionary, as far as this module reads it:
    [metadata['model_info']['name']] and
    [metadata['data_info']['selected_features']]; an absent key is [None]. *)
Record ModelInfo := {
  name : option string
}.

Record DataInfo := {
  selected_features : option (list string)
}.

Record Metadata := {
  model_info : option ModelInfo;
  data_info : option DataInfo
}.

(** The singleton [ModelCache] object. *)
Record ModelCache := {
  _model : option Model;
  _metadata : option Metadata
}.

(** The state of the serving process: the module-level [_model_cache], and
    (for the proofs only) the frames handed to [model.predict] so far. *)
Record Process := {
  _model_cache : ModelCache;
  predict_calls : list DataFrame
}.

(** The process right after the module is imported. *)
Definition startup : Process :=
  {| _model_cache := {| _model := None; _metadata := None |};
     predict_calls := [] |}.

(** Python code running in the process: it returns or raises, and leaves a
    state behind in either case. *)
Definition Py (A : Type) : Type := Process → Result A * Process.

Global Instance Py_ret : MRet Py := λ A a st, (Ok a, st).
Global Instance Py_bind : MBind Py := λ A B f c st,
  match c st with
  | (Ok a, st') => f a st'
  | (Raise e, st') => (Raise e, st')
  end.

(** A computation that does not touch the process state. *)
Definition lift {A} (r : Result A) : Py A := λ st, (r, st).

Definition get_cache : Py ModelCache := λ st, (Ok (_model_cache st), st).

(** [self._model = model] *)
Definition set_model (model : Model) : Py unit := λ st,
  (Ok (),
   {| _model_cache := {| _model := Some model;
                         _metadata := _metadata (_model_cache st) |};
      predict_calls := predict_calls st |}).

(** [self._metadata = metadata] *)
Definition set_metadata (metadata : Metadata) : Py unit := λ st,
  (Ok (),
   {| _model_cache := {| _model := _model (_model_cache st);
                         _metadata := Some metadata |};
      predict_calls := predict_calls st |}).

(** [metadata['model_info']['name']] *)
Definition metadata_name (metadata : Metadata) : Result string :=
  match model_info metadata with
  | None => Raise (KeyError "'model_info'")
  | Some info =>
      match name info with
      | None => Raise (KeyError "'name'")
      | Some n => Ok n
      end
  end.

(** [metadata.get('data_info', {}).get('selected_features', EXPECTED_FEATURES)] *)
Definition metadata_features (metadata : option Metadata)
  : Result (list string) :=
  match metadata with
  | None => Raise (AttributeError "'NoneType' object has no attribute 'get'")
  | Some md =>
      Ok (default config.EXPECTED_FEATURES
            (data_info md ≫= selected_features))
  end.

(** [model.predict(df)]; the call is recorded. *)
Definition model_predict (model : option Model) (df : DataFrame)
  : Py (list pyfloat) := λ st,
  match model with
  | None =>
      (Raise (AttributeError "'NoneType' object has no attribute 'predict'"),
       st)
  | Some m =>
      (predict m df,
       {| _model_cache := _model_cache st;
          predict_calls := predict_calls st ++ [df] |})
  end.

(** [a[0]] *)
Definition getitem0 (a : list pyfloat) : Result pyfloat :=
  match a with
  | [] => Raise (IndexError "index 0 is out of bounds for axis 0 with size 0")
  | x :: _ => Ok x
  end.

(** [pd.DataFrame([input_data])]: one row, one column per key. *)
Definition frame_of_record (input_data : gmap string Cell) : DataFrame :=
  {| df_len := 1;
     df_data := (λ kv, (Name kv.1, [kv.2])) <$> map_to_list input_data |}.

(** [df[names]] for a list of labels: the columns carrying each label, in
    the order of the list; [KeyError] when a label has no column (the
    message text is abridged). *)
Definition getitem_columns (df : DataFrame) (names : list string)
  : Result DataFrame :=
  match filter (λ n, Name n ∉ columns df) names with
  | [] =>
      Ok {| df_len := df_len df;
            df_data :=
              names ≫= (λ n, filter (λ col, col.1 = Name n) (df_data df)) |}
  | missing => Raise (KeyError (repr_list missing +:+ " not in index"))
  end.

(** [data.iloc[i].to_dict()]: row [i] of a frame as a record, keyed by the
    column names. *)
Fixpoint row_cells (cols : list (Label * list Cell)) (i : nat)
  : gmap string Cell :=
  match cols with
  | [] => ∅
  | (Name n, c) :: cols' => <[n := default CNull (c !! i)]> (row_cells cols' i)
  | (Pos _, _) :: cols' => row_cells cols' i
  end.

Definition row_record (data : DataFrame) (i : nat) : gmap string Cell :=
  row_cells (df_data data) i.

(** [prepare_features] *)
Definition prepare_features (input_data : gmap string Cell)
    (expected_features : option (list string)) : Result DataFrame :=
  let expected_features :=
    default config.EXPECTED_FEATURES expected_features in
  let missing_features :=
    filter (λ f, input_data !! f = None) expected_features in
  match missing_features with
  | _ :: _ =>
      Raise (ValueError ("Missing required features: " +:+
                         repr_list missing_features))
  | [] => getitem_columns (frame_of_record input_data) expected_features
  end.

(** [get_price_category] *)
Definition get_price_category (price : pyfloat) : string :=
  if float_lt price (config.PRICE_RANGES !!! "budget") then "Budget-Friendly"
  else if float_lt price (config.PRICE_RANGES !!! "luxury") then "Mid-Range"
  else "Luxury".

Section runtime.
(** What is on disk, and numpy's [expm1] (the floating-point
    [exp(x) - 1]), stay abstract. *)
Variable joblib_load_model : Result Model.       (* joblib.load(MODEL_PATH) *)
Variable joblib_load_metadata : Result Metadata. (* joblib.load(METADATA_PATH) *)
Variable np_expm1 : pyfloat → pyfloat.

(** [ModelCache._load_model]; logging is left out, but the log line reads
    [self._metadata['model_info']['name']], which may raise. *)
Definition _load_model : Py unit :=
  model ← lift joblib_load_model;
  set_model model;;
  metadata ← lift joblib_load_metadata;
  set_metadata metadata;;
  lift (metadata_name metadata);;
  mret ().

(** [ModelCache.get_model_and_metadata] *)
Definition get_model_and_metadata : Py (option Model * option Metadata) :=
  self ← get_cache;
  (match _model self, _metadata self with
   | Some _, Some _ => mret ()
   | _, _ => _load_model
   end);;
  self ← get_cache;
  mret (_model self, _metadata self).

(** [load_model_and_metadata] *)
Definition load_model_and_metadata : Py (option Model * option Metadata) :=
  if config.ENABLE_CACHING then get_model_and_metadata
  else
    model ← lift joblib_load_model;
    metadata ← lift joblib_load_metadata;
    mret (Some model, Some metadata).

(** [predict_price] *)
Definition predict_price (input_data : gmap string Cell)
    (use_log_target : bool) : Py pyfloat :=
  '(model, metadata) ← load_model_and_metadata;
  input_df ← lift (prepare_features input_data None);
  log_prediction ← model_predict model input_df;
  x ← lift (getitem0 log_prediction);
  mret (if use_log_target then np_expm1 x else x).

(** [batch_predict] *)
Definition batch_predict (data : DataFrame) : Py (list pyfloat) :=
  '(model, metadata) ← load_model_and_metadata;
  expected_features ← lift (metadata_features metadata);
  input_df ← lift (getitem_columns data expected_features);
  log_predictions ← model_predict model input_df;
  mret (np_expm1 <$> log_predictions).

(** A series of [predict_price] requests, one after the other; the
    results are dropped, the process state is kept. *)
Definition serve (requests : list (gmap string Cell)) (st : Process)
  : Process :=
  foldl (λ st input_data, (predict_price input_data true st).2) st requests.

(** A request to the module: one record or one batch. *)
Inductive Request :=
  | Single (input_data : gmap string Cell) (use_log_target : bool)
  | Batch (data : DataFrame).

(** The process after a request has been handled. *)
Definition handle (r : Request) (st : Process) : Process :=
  match r with
  | Single input_data use_log_target =>
      (predict_price input_data use_log_target st).2
  | Batch data => (batch_predict data st).2
  end.

Definition run (requests : list Request) (st : Process) : Process :=
  foldl (λ st r, handle r st) st requests.

(** The process together with the store of [@lru_cache(maxsize=1000)] on
    [cached_predict]: argument tuples with their results, most recently
    used first. *)
Record Server := {
  process : Process;
  lru : list (list Cell * pyfloat)
}.

Definition maxsize : nat := 1000.

(** [dict(zip(keys, input_tuple))] in [cached_predict]. *)
Definition tuple_to_dict (input_tuple : list Cell) : gmap string Cell :=
  list_to_map
    (zip ["brokertitle"; "type"; "beds"; "bath"; "propertysqft";
          "sublocality"] input_tuple).

(** [cached_predict]: a stored tuple is answered from the store and becomes
    the most recent entry; otherwise [predict_price] runs, a result is
    stored (the oldest entry leaves a full store), an exception is not. *)
Definition cached_predict (input_tuple : list Cell) (sv : Server)
  : Result pyfloat * Server :=
  match filter (λ kv, kv.1 = input_tuple) (lru sv) with
  | (_, v) :: _ =>
      (Ok v,
       {| process := process sv;
          lru := (input_tuple, v)
                   :: filter (λ kv, kv.1 ≠ input_tuple) (lru sv) |})
  | [] =>
      match predict_price (tuple_to_dict input_tuple) true (process sv) with
      | (Ok v, st') =>
          (Ok v,
           {| process := st';
              lru := take maxsize ((input_tuple, v) :: lru sv) |})
      | (Raise e, st') => (Raise e, {| process := st'; lru := lru sv |})
      end
  end.

Definition serve_cached (tuples : list (list Cell)) (sv : Server) : Server :=
  foldl (λ sv t, (cached_predict t sv).2) sv tuples.

End runtime.

End predict.

(** ** [streamlit_app/streamlit_app.py] *)
Module streamlit_app.

(** [prepare_features]: the frame of the record, reordered; nothing is
    checked first. *)
Definition prepare_features (input_data : gmap string Cell)
    (expected_features : list string) : Result DataFrame :=
  predict.getitem_columns (predict.frame_of_record input_data)
    expected_features.

(** Truth value of a float in [if predicted_price:]. *)
Definition truthy (x : pyfloat) : bool :=
  match x with
  | FNum q => negb (bool_decide (q = Qc_of_Z 0))
  | _ => true
  end.

(** The price category shown by [single_property_interface]: nothing when
    the prediction failed ([None]) or the price is falsy, else the label
    picked by the thresholds written in the page. *)
Definition price_category (predicted_price : option pyfloat)
  : option string :=
  match predicted_price with
  | None => None
  | Some price =>
      if truthy price then
        Some (if float_lt price 500000 then "Budget-Friendly"
              else if float_lt price 1500000 then "Mid-Range"
              else "Luxury")
      else None
  end.

(** The column check of [batch_prediction_interface]:
    [[col for col in expected_features if col not in df.columns]]. *)
Definition missing_columns (df : DataFrame) (expected_features : list string)
  : list string :=
  filter (λ col, Name col ∉ columns df) expected_features.

Section pages.
Variable joblib_load_model : Result predict.Model.
Variable joblib_load_metadata : Result predict.Metadata.
Variable np_expm1 : pyfloat → pyfloat.

(** What [batch_prediction_interface] computes for an uploaded frame:
    nothing when the column check fails, else
    [batch_predict(df[expected_features].copy())]; an exception ends in
    the [except] clause of the page. *)
Definition batch_predictions (expected_features : list string)
    (df : DataFrame) : predict.Py (option (list pyfloat)) :=
  match missing_columns df expected_features with
  | _ :: _ => mret None
  | [] =>
      input_df ← predict.lift (predict.getitem_columns df expected_features);
      predictions ← predict.batch_predict joblib_load_model
                      joblib_load_metadata np_expm1 input_df;
      mret (Some predictions)
  end.

End pages.
End streamlit_app.

(** ** [script/train.py]: [create_preprocessor] *)
Module train.

(** The estimators the preprocessor is built from. *)
Inductive Estimator :=
  | FrequencyEncoder (handle_unknown : string)
  | OneHotEncoder (drop handle_unknown : string)
  | StandardScaler.

(** What [X_train[col]] is for one label: the column, or a frame of all
    the columns that carry the label when there are several. *)
Inductive Selection :=
  | Series (s : list Cell)
  | SubFrame (cols : list (list Cell)).

(** [X_train[col]] for one label: [KeyError] when there is no such
    column. *)
Definition getitem_column (df : DataFrame) (col : string)
  : Result Selection :=
  match filter (λ c, c.1 = Name col) (df_data df) with
  | [] => Raise (KeyError (repr_str col))
  | [c] => Ok (Series c.2)
  | cs => Ok (SubFrame cs.*2)
  end.

(** [Series.nunique()]: the number of distinct values, missing ones left
    out. *)
Definition nunique (s : list Cell) : nat := size (value_counts s).

Definition categorical_features : list string :=
  ["brokertitle"; "type"; "sublocality"].
Definition numerical_features : list string :=
  ["beds"; "bath"; "propertysqft"].
Definition high_cardinality_threshold : nat := 50.

(** The test [X_train[col].nunique() > high_cardinality_threshold] of the
    [if]: on a frame [nunique()] is a series of counts, and pandas refuses
    the truth value of the comparison. *)
Definition is_high_cardinality (X_train : DataFrame) (col : string)
  : Result bool :=
  selection ← getitem_column X_train col;
  match selection with
  | Series s => Ok (bool_decide (high_cardinality_threshold < nunique s)%nat)
  | SubFrame _ =>
      Raise (ValueError
               ("The truth value of a Series is ambiguous. " +:+
                "Use a.empty, a.bool(), a.item(), a.any() or a.all()."))
  end.

(** The loop that sorts the categorical features into
    [(high_cardinality_features, low_cardinality_features)]. *)
Fixpoint split_by_cardinality (X_train : DataFrame) (cols : list string)
  : Result (list string * list string) :=
  match cols with
  | [] => Ok ([], [])
  | col :: cols' =>
      high_cardinality ← is_high_cardinality X_train col;
      '(high, low) ← split_by_cardinality X_train cols';
      Ok (if high_cardinality : bool
          then (col :: high, low) else (high, col :: low))
  end.

(** [create_preprocessor]: the [transformers] list handed to
    [ColumnTransformer(..., remainder='drop')]. *)
Definition create_preprocessor (X_train : DataFrame)
  : Result (list (string * Estimator * list string)) :=
  '(high, low) ← split_by_cardinality X_train categorical_features;
  Ok ((match high with
       | [] => []
       | _ => [("categorical_high", FrequencyEncoder "zero", high)]
       end ++
       match low with
       | [] => []
       | _ => [("categorical_low", OneHotEncoder "first" "ignore", low)]
       end ++
       [("numerical", StandardScaler, numerical_features)])%list).

End train.

(** ** [flask_app/app.py]: the [/predict] route *)
Module flask_app.

(** The module globals [model] and [metadata] as the start-up block left
    them: both [None] when loading failed.  A loaded model and a loaded
    metadata dictionary are taken to be truthy. *)
Record Globals := {
  model : option predict.Model;
  metadata : option predict.Metadata
}.

(** The body of a POST: not JSON, or the JSON object it parses to. *)
Inductive RequestBody :=
  | NotJson
  | JsonObject (input_data : gmap string Cell).

(** The payload of a successful answer, before rounding and formatting. *)
Record Prediction := {
  predicted_price : pyfloat;
  price_category : string;
  model_info : string;
  features_used : list string
}.

(** What the route returns: the payload with status 200, or an ['error']
    text with its status. *)
Inductive Response :=
  | Answer (p : Prediction)
  | Error (status : nat) (error : string).

Definition status_code (r : Response) : nat :=
  match r with
  | Answer _ => 200
  | Error status _ => status
  end.

(** [str(e)] *)
Definition str (e : PyError) : string :=
  match e with
  | ValueError msg | KeyError msg | IndexError msg | AttributeError msg
  | RaisedByModel msg | RaisedByLoad msg => msg
  end.

(** The two [except] clauses of the route. *)
Definition handle_exception (e : PyError) : Response :=
  match e with
  | ValueError _ => Error 400 ("Input validation error: " +:+ str e)
  | _ => Error 500 ("Prediction error: " +:+ str e)
  end.

(** [metadata['data_info']['selected_features']] *)
Definition selected_features (metadata : predict.Metadata)
  : Result (list string) :=
  match predict.data_info metadata with
  | None => Raise (KeyError "'data_info'")
  | Some info =>
      match predict.selected_features info with
      | None => Raise (KeyError "'selected_features'")
      | Some fs => Ok fs
      end
  end.

Section routes.
Variable joblib_load_model : Result predict.Model.
Variable joblib_load_metadata : Result predict.Metadata.
Variable np_expm1 : pyfloat → pyfloat.
(** The two rounded entries read from [metadata['performance']]. *)
Variable model_performance : predict.Metadata → Result unit.

(** The response dictionary, its entries evaluated in the order written. *)
Definition response (metadata : predict.Metadata) (price : pyfloat)
  : Result Prediction :=
  name ← predict.metadata_name metadata;
  features ← selected_features metadata;
  _ ← model_performance metadata;
  mret {| predicted_price := price;
          price_category := predict.get_price_category price;
          model_info := name;
          features_used := features |}.

(** [predict], the handler of [POST /predict]. *)
Definition predict (g : Globals) (body : RequestBody)
  : predict.Process → Response * predict.Process := λ st,
  match model g, metadata g with
  | Some _, Some metadata =>
      match body with
      | NotJson => (Error 400 "Request must be JSON", st)
      | JsonObject input_data =>
          if decide (input_data = ∅)
          then (Error 400 "No input data provided", st)
          else
            match filter (λ f, input_data !! f = None)
                    config.EXPECTED_FEATURES with
            | (_ :: _) as missing_features =>
                (Error 400 ("Missing required features: " +:+
                            repr_list missing_features), st)
            | [] =>
                match predict.predict_price joblib_load_model
                        joblib_load_metadata np_expm1 input_data true st with
                | (Ok price, st') =>
                    (match response metadata price with
                     | Ok p => Answer p
                     | Raise e => handle_exception e
                     end, st')
                | (Raise e, st') => (handle_exception e, st')
                end
            end
      end
  | _, _ => (Error 500 "Model not loaded", st)
  end.

End routes.
End flask_app.

(** ** Vocabulary of the statements, and sample data *)

(** Every count stored in every frequency table is at least one. *)
Definition counts_positive (maps : gmap Label (gmap Cell nat)) : Prop :=
  ∀ col tbl v (n : nat),
    maps !! col = Some tbl → tbl !! v = Some n → (1 ≤ n)%nat.

(** The column of a frame that carries the label [l]. *)
Definition df_column (df : DataFrame) (l : Label) : list Cell :=
  default [] ((list_to_map (df_data df) : gmap Label (list Cell)) !! l).

(** The rows of a frame, top to bottom, each in column order. *)
Definition df_rows (df : DataFrame) : list (list Cell) :=
  (λ i, (λ col : Label * list Cell, default CNull (col.2 !! i)) <$> df_data df)
    <$> seq 0 (df_len df).

(** The single-row frame with the fields [features] of a record, in that
    order. *)
Definition single_row (input_data : gmap string Cell) (features : list string)
  : DataFrame :=
  {| df_len := 1;
     df_data := (λ f, (Name f, [default CNull (input_data !! f)])) <$> features |}.

(** The model maps each row on its own: there is a function of the column
    labels and one row that gives the model's output for that row. *)
Definition row_independent (m : predict.Model)
    (f : list Label → list Cell → pyfloat) : Prop :=
  ∀ df, predict.predict m df = Ok (f (columns df) <$> df_rows df).

(** What [predict_price] makes of the model's answer on the frame [df]:
    the first output, through [expm1] when the target was log-transformed. *)
Definition price_from (np_expm1 : pyfloat → pyfloat) (m : predict.Model)
    (df : DataFrame) (use_log_target : bool) : Result pyfloat :=
  log_prediction ← predict.predict m df;
  x ← predict.getitem0 log_prediction;
  Ok (if use_log_target then np_expm1 x else x).

(** The text [part] occurs in [msg]. *)
Definition mentions (msg part : string) : Prop :=
  ∃ pre post, msg = pre +:+ part +:+ post.

(** A cell that [int64] and [float64] columns hold alike: a number is one
    of magnitude at most 2^53, so that a cast between the two dtypes
    leaves it as it is. *)
Definition cast_exact (c : Cell) : Prop :=
  match c with
  | CNum q => (Qc_of_Z (- 2 ^ 53) ≤ q)%Qc ∧ (q ≤ Qc_of_Z (2 ^ 53))%Qc
  | _ => True
  end.

(** The column labels [transform] works with: those of the frame, or for
    an array the names recorded by the last [fit] ([RangeIndex] when there
    are none). *)
Definition transform_labels (self : utils.FrequencyEncoder) (X : Batch)
  : list Label :=
  match X with
  | Frame df => columns df
  | Array a =>
      default (RangeIndex (shape1 a)) (utils.feature_names_in_ self)
  end.


(** The sum of the counts of a frequency table. *)
Definition total_count (tbl : gmap Cell nat) : nat :=
  map_fold (λ _ n acc, (n + acc)%nat) 0%nat tbl.

(** What is in the cache came from the files, and the metadata slot is
    only filled once the model slot is. *)
Definition cache_from_disk (joblib_load_model : Result predict.Model)
    (joblib_load_metadata : Result predict.Metadata)
    (st : predict.Process) : Prop :=
  (∀ m, predict._model (predict._model_cache st) = Some m →
        joblib_load_model = Ok m) ∧
  (∀ md, predict._metadata (predict._model_cache st) = Some md →
         joblib_load_metadata = Ok md ∧
         is_Some (predict._model (predict._model_cache st))).

(** The outcome of [predict_price] as a function of the model and the
    record alone. *)
Definition price_of (np_expm1 : pyfloat → pyfloat) (m : predict.Model)
    (input_data : gmap string Cell) (use_log_target : bool)
  : Result pyfloat :=
  df ← predict.prepare_features input_data None;
  price_from np_expm1 m df use_log_target.

(** Every stored tuple carries the price [predict_price] gives for it. *)
Definition lru_sound (np_expm1 : pyfloat → pyfloat) (m : predict.Model)
    (entries : list (list Cell * pyfloat)) : Prop :=
  ∀ t v, (t, v) ∈ entries →
    price_of np_expm1 m (predict.tuple_to_dict t) true = Ok v.

(** The order of the three labels. *)
Definition category_rank (label : string) : nat :=
  if decide (label = "Budget-Friendly") then 0
  else if decide (label = "Mid-Range") then 1 else 2.

(** [x <= y] on numbers. *)
Definition float_le (x y : pyfloat) : Prop :=
  match x, y with
  | FInf true, _ => y ≠ FNaN
  | _, FInf false => x ≠ FNaN
  | FNum p, FNum q => (p ≤ q)%Qc
  | _, _ => False
  end.

(** The price is a number (possibly infinite), not NaN. *)
Definition is_number (price : pyfloat) : Prop := price ≠ FNaN.

Module samples.

(** The frame of the encoder check in [tests/test_system.py]. *)
Definition category_frame : DataFrame :=
  {| df_len := 6;
     df_data := [(Name "category", CStr <$> ["A"; "B"; "A"; "C"; "B"; "A"])] |}.

(** A later batch: a seen and an unseen category, next to a column the
    encoder was never fitted on. *)
Definition query_frame : DataFrame :=
  {| df_len := 2;
     df_data := [(Name "category", [CStr "A"; CStr "Z"]);
                 (Name "sublocality", [CStr "Manhattan"; CStr "Queens"])] |}.

(** A batch with another column only. *)
Definition broker_frame : DataFrame :=
  {| df_len := 2;
     df_data := [(Name "brokertitle",
                  [CStr "Brokered by COMPASS"; CStr "Brokered by Serhant"])] |}.

(** The request of the test scripts and of [/debug/test-prediction]. *)
Definition compass_condo : gmap string Cell :=
  list_to_map
    [("brokertitle", CStr "Brokered by COMPASS");
     ("type", CStr "Condo for sale");
     ("beds", CNum (Qc_of_Z 2));
     ("bath", CNum (Qc_of_Z 1));
     ("propertysqft", CNum (Qc_of_Z 800));
     ("sublocality", CStr "Manhattan")].

(** The two rows of the sample CSV of [/download-sample]. *)
Definition sample_properties : DataFrame :=
  {| df_len := 2;
     df_data :=
       [(Name "brokertitle",
         [CStr "Brokered by COMPASS";
          CStr "Brokered by Douglas Elliman - 575 Madison Ave"]);
        (Name "type", [CStr "Condo for sale"; CStr "House for sale"]);
        (Name "beds", [CNum (Qc_of_Z 2); CNum (Qc_of_Z 3)]);
        (Name "bath", [CNum (Qc_of_Z 1); CNum (Qc_of_Z 2)]);
        (Name "propertysqft", [CNum (Qc_of_Z 800); CNum (Qc_of_Z 1200)]);
        (Name "sublocality", [CStr "Manhattan"; CStr "Brooklyn"])] |}.

(** A toy model for the examples: the score of a row is read off its
    first cell, 0 for a COMPASS listing and +inf for any other. *)
Definition first_cell_score (labels : list Label) (row : list Cell) : pyfloat :=
  match row with
  | CStr "Brokered by COMPASS" :: _ => FNum (Qc_of_Z 0)
  | _ => FInf false
  end.

Definition toy_model : predict.Model :=
  {| predict.predict := λ df, Ok (first_cell_score (columns df) <$> df_rows df) |}.

(** Metadata as [train.py] writes it (no [data_info]). *)
Definition metadata_from_train : predict.Metadata :=
  {| predict.model_info :=
       Some {| predict.name := Some "XGBoost with Frequency Encoding" |};
     predict.data_info := None |}.

(** Metadata of the older layout, listing the features in another order. *)
Definition metadata_other_order : predict.Metadata :=
  {| predict.model_info :=
       Some {| predict.name := Some "XGBoost with Frequency Encoding" |};
     predict.data_info :=
       Some {| predict.selected_features :=
                 Some ["type"; "brokertitle"; "beds"; "bath";
                       "propertysqft"; "sublocality"] |} |}.

(** Metadata without the [model_info] entry that [_load_model] logs. *)
Definition metadata_without_name : predict.Metadata :=
  {| predict.model_info := None; predict.data_info := None |}.

(** A stand-in for [np.expm1] in the examples: exact where the value is a
    rational or special ([expm1(0) = 0], [expm1(+inf) = +inf],
    [expm1(-inf) = -1], [expm1(nan) = nan]); elsewhere the second-order
    Taylor polynomial. *)
Definition expm1 (x : pyfloat) : pyfloat :=
  match x with
  | FNum q =>
      if decide (q = Qc_of_Z 0) then x
      else FNum (q + q * q / Qc_of_Z 2)%Qc
  | FInf true => FNum (Qc_of_Z (-1))
  | FInf false => FInf false
  | FNaN => FNaN
  end.

(** A process whose cache holds the toy model. *)
Definition loaded (metadata : predict.Metadata) : predict.Process :=
  {| predict._model_cache :=
       {| predict._model := Some toy_model;
          predict._metadata := Some metadata |};
     predict.predict_calls := [] |}.

End samples.

(** More sample data. *)
Module more_samples.

(** The frame of the encoder check with its rows in reverse order. *)
Definition category_frame_reversed : DataFrame :=
  {| df_len := 6;
     df_data := [(Name "category", CStr <$> ["A"; "B"; "C"; "A"; "B"; "A"])] |}.

(** A later batch with a missing cell. *)
Definition frame_with_missing : DataFrame :=
  {| df_len := 2;
     df_data := [(Name "category", [CNull; CStr "B"])] |}.

(** The sample batch with a column that is not a feature. *)
Definition sample_properties_with_price : DataFrame :=
  {| df_len := 2;
     df_data :=
       df_data samples.sample_properties ++
       [(Name "price", [CNum (Qc_of_Z 750000); CNum (Qc_of_Z 900000)])] |}.

(** The argument tuple of [cached_predict] for the sample request. *)
Definition compass_condo_tuple : list Cell :=
  [CStr "Brokered by COMPASS"; CStr "Condo for sale"; CNum (Qc_of_Z 2);
   CNum (Qc_of_Z 1); CNum (Qc_of_Z 800); CStr "Manhattan"].

(** Training data with 51 brokers, one property type and one borough. *)
Definition training_frame : DataFrame :=
  {| df_len := 51;
     df_data :=
       [(Name "brokertitle",
         (λ k : nat, CStr ("Broker " +:+ pretty k)) <$> seq 0 51);
        (Name "type", replicate 51 (CStr "Condo for sale"));
        (Name "sublocality", replicate 51 (CStr "Manhattan"))] |}.

(** A bare array with one column of categories. *)
Definition category_array : NDArray :=
  {| nd_len := 3; nd_cols := [[CStr "A"; CStr "B"; CStr "A"]] |}.

(** A request that names the number of beds only. *)
Definition beds_only : gmap string Cell := {[ "beds" := CNum (Qc_of_Z 2) ]}.

(** The globals of the Flask module after a start-up with the toy model. *)
Definition flask_globals : flask_app.Globals :=
  {| flask_app.model := Some samples.toy_model;
     flask_app.metadata := Some samples.metadata_from_train |}.

End more_samples.

(** ** Proof tactics *)

(** Evaluate a decidable side condition. *)
Ltac by_compute :=
  lazymatch goal with
  | |- ?P => refine (bool_decide_unpack P _); vm_compute; exact I
  end.

(** Unfold the plumbing of [Py] computations. *)
Ltac unfold_py :=
  unfold predict.get_model_and_metadata, predict._load_model,
    predict.get_cache, predict.set_model, predict.set_metadata,
    predict.model_predict, predict.lift, mbind, predict.Py_bind, mret,
    predict.Py_ret in *.

(** * Properties *)

(** ** Counting *)
Section counting.
Implicit Types (v c : Cell) (s : list Cell) (n m : nat).

Lemma times_seen_cons v c s :
  times_seen v (c :: s) = (if decide (c = v) then 1 else 0) + times_seen v s.
Proof. unfold times_seen. rewrite filter_cons. by case_decide. Qed.

Lemma value_counts_cons c s :
  value_counts (c :: s) =
    match c with
    | CNull => value_counts s
    | _ => <[c := S (default 0 (value_counts s !! c))]> (value_counts s)
    end.
Proof. by destruct c. Qed.

(** Missing values are never counted. *)
Lemma value_counts_null s : value_counts s !! CNull = None.
Proof.
  induction s as [|c s IH]; [done|].
  rewrite value_counts_cons. destruct c; by rewrite ?lookup_insert_ne.
Qed.

(** Every other value is counted exactly; a value that does not occur has
    no entry. *)
Lemma value_counts_lookup v s :
  v ≠ CNull →
  value_counts s !! v =
    match times_seen v s with 0 => None | S n => Some (S n) end.
Proof.
  intros Hv. induction s as [|c s IH]; [done|].
  rewrite times_seen_cons, value_counts_cons.
  destruct (decide (c = v)) as [->|Hne].
  - destruct v; [| |done]; rewrite lookup_insert_eq, IH;
      by destruct (times_seen _ s).
  - destruct c; by rewrite ?lookup_insert_ne.
Qed.

Lemma value_counts_positive s v n : value_counts s !! v = Some n → (1 ≤ n)%nat.
Proof.
  destruct (decide (v = CNull)) as [->|Hv].
  - by rewrite value_counts_null.
  - rewrite value_counts_lookup by done.
    destruct (times_seen v s); [done|]. intros [= <-]. lia.
Qed.

End counting.

(** ** The frequency encoder *)
Section encoder.
Import utils.
Implicit Types (self : FrequencyEncoder) (X : Batch) (df : DataFrame).
Implicit Types (maps : gmap Label (gmap Cell nat)).
Implicit Types (cols : list (Label * list Cell)) (col : Label).

Lemma fit_columns_cons maps c cols :
  fit_columns maps (c :: cols) =
    fit_columns (<[c.1 := value_counts c.2]> maps) cols.
Proof. done. Qed.

(** A column that is not in the batch keeps the table it had. *)
Lemma fit_columns_lookup_notin maps cols col :
  col ∉ cols.*1 → fit_columns maps cols !! col = maps !! col.
Proof.
  revert maps. induction cols as [|c cols IH]; intros maps Hnot; [done|].
  rewrite fit_columns_cons. rewrite fmap_cons, not_elem_of_cons in Hnot.
  destruct Hnot as [Hne Hnot]. rewrite IH by done.
  by rewrite lookup_insert_ne.
Qed.

(** A column of the batch gets a table that does not depend on what was
    there before. *)
Lemma fit_columns_lookup_in maps1 maps2 cols col :
  col ∈ cols.*1 →
  fit_columns maps1 cols !! col = fit_columns maps2 cols !! col.
Proof.
  revert maps1 maps2.
  induction cols as [|c cols IH]; intros maps1 maps2 Hin.
  { by apply elem_of_nil in Hin. }
  rewrite !fit_columns_cons.
  destruct (decide (col ∈ cols.*1)) as [Hin'|Hnot]; [by apply IH|].
  rewrite fmap_cons, elem_of_cons in Hin. destruct Hin as [->|?]; [|done].
  rewrite !fit_columns_lookup_notin by done.
  by rewrite !lookup_insert_eq.
Qed.

(** With unique labels, the table of a column counts that column. *)
Lemma fit_columns_lookup maps cols col train :
  NoDup cols.*1 → (col, train) ∈ cols →
  fit_columns maps cols !! col = Some (value_counts train).
Proof.
  revert maps. induction cols as [|c cols IH]; intros maps Hnd Hin.
  { by apply elem_of_nil in Hin. }
  rewrite fmap_cons in Hnd. apply NoDup_cons in Hnd as [Hc Hnd].
  rewrite fit_columns_cons. apply elem_of_cons in Hin as [<-|Hin].
  - rewrite fit_columns_lookup_notin by done. by rewrite lookup_insert_eq.
  - by apply IH.
Qed.

Lemma fit_columns_positive maps cols :
  counts_positive maps → counts_positive (fit_columns maps cols).
Proof.
  revert maps. induction cols as [|c cols IH]; intros maps Hpos; [done|].
  rewrite fit_columns_cons. apply IH.
  intros col tbl v n Hcol Hv.
  destruct (decide (c.1 = col)) as [<-|Hne].
  - rewrite lookup_insert_eq in Hcol. injection Hcol as <-.
    by eapply value_counts_positive.
  - rewrite lookup_insert_ne in Hcol by done. by eapply Hpos.
Qed.

Lemma fit_all_snoc policy Xs X :
  fit_all policy (Xs ++ [X]) = fit (fit_all policy Xs) X.
Proof. unfold fit_all. by rewrite foldl_app. Qed.

Lemma fit_all_handle_unknown policy Xs :
  handle_unknown (fit_all policy Xs) = policy.
Proof.
  induction Xs as [|X Xs IH] using rev_ind; [done|].
  by rewrite fit_all_snoc.
Qed.

Lemma fit_all_positive policy Xs :
  counts_positive (frequency_maps_ (fit_all policy Xs)).
Proof.
  induction Xs as [|X Xs IH] using rev_ind.
  - intros col tbl v n Hcol. cbn in Hcol. by rewrite lookup_empty in Hcol.
  - rewrite fit_all_snoc. by apply fit_columns_positive.
Qed.

(** The frame [transform] builds has the cells of the batch, column by
    column. *)
Lemma transform_frame_values self X df :
  transform_frame self X = Ok df →
  df_len df = nd_len (batch_values X) ∧
  (df_data df).*2 = nd_cols (batch_values X).
Proof.
  destruct X as [d|a]; simpl.
  - by intros [= ->].
  - unfold pd_DataFrame. destruct (feature_names_in_ self) as [ns|].
    + case_decide as Hlen; [|done]. intros [= <-]. simpl.
      split; [done|]. apply snd_zip. unfold shape1 in Hlen. lia.
    + intros [= <-]. simpl. split; [done|]. apply snd_zip.
      unfold RangeIndex, shape1. by rewrite length_fmap, length_seq.
Qed.

Lemma transform_eq self X df :
  transform_frame self X = Ok df →
  transform self X =
    Ok {| nd_len := df_len df;
          nd_cols := (transform_column self <$> df_data df).*2 |}.
Proof. unfold transform. by intros ->. Qed.

Lemma transform_column_fitted self col vals tbl :
  frequency_maps_ self !! col = Some tbl →
  transform_column self (col, vals) =
    (col, map_fillna tbl (fill_value self) <$> vals).
Proof. unfold transform_column. simpl. by intros ->. Qed.

Lemma transform_column_unfitted self c :
  frequency_maps_ self !! c.1 = None → transform_column self c = c.
Proof. unfold transform_column. by intros ->. Qed.

(** The cell [transform] writes at row [i] of a fitted column. *)
Lemma transform_cell self X df j col vals tbl i v :
  transform_frame self X = Ok df →
  df_data df !! j = Some (col, vals) →
  frequency_maps_ self !! col = Some tbl →
  vals !! i = Some v →
  ∃ out, transform self X = Ok out ∧
    cell_at out i j = Some (map_fillna tbl (fill_value self) v).
Proof.
  intros Hdf Hj Htbl Hi. eexists. split; [by apply transform_eq|].
  unfold cell_at. simpl.
  rewrite !list_lookup_fmap, Hj. simpl.
  rewrite (transform_column_fitted _ _ _ tbl) by done. simpl.
  by rewrite list_lookup_fmap, Hi.
Qed.

(** When no column of the batch has a table, the batch comes back as it
    is. *)
Lemma transform_nothing_fitted self X df :
  transform_frame self X = Ok df →
  (∀ col, col ∈ columns df → frequency_maps_ self !! col = None) →
  transform self X = Ok (batch_values X).
Proof.
  intros Hdf Hnone. rewrite (transform_eq _ _ _ Hdf).
  destruct (transform_frame_values _ _ _ Hdf) as [Hlen Hcols].
  destruct (batch_values X) as [len cols]. simpl in *. subst. do 2 f_equal.
  rewrite (list_fmap_ext (transform_column self) id (df_data df));
    [by rewrite list_fmap_id|].
  intros k c Hk. apply transform_column_unfitted, Hnone.
  apply list_elem_of_fmap. exists c. split; [done|].
  by eapply list_elem_of_lookup_2.
Qed.
End encoder.

Section encoder_claims.
Import utils.
Implicit Types (self enc : FrequencyEncoder) (X Xfit : Batch).
Implicit Types (df : DataFrame) (col : Label) (v : Cell).

(** What the encoder does where a column is found fitted.  Take an
    encoder fitted on [Xfit] and a column [col] of [Xfit] holding the
    values [train], all labels unique and the numbers of [train] and the
    value [v] held alike by [int64] and [float64].  In any later batch, a
    value [v] in column [col] that occurs in [train] is replaced by the
    number of times it occurs there ([v] being a value, not the missing
    marker, which pandas does not count); a value that does not occur in
    [train] is replaced by 0 when the encoder was constructed with
    ['zero'] and by 1 when it was constructed with ['rare']. *)
Theorem transform_replaces_value_by_fit_count
    enc Xfit X df col (train vals : list Cell) (i j : nat) v :
  NoDup (columns (fit_frame Xfit)) →
  (col, train) ∈ df_data (fit_frame Xfit) →
  Forall cast_exact train →
  transform_frame (fit enc Xfit) X = Ok df →
  NoDup (columns df) →
  df_data df !! j = Some (col, vals) →
  vals !! i = Some v →
  cast_exact v →
  ∃ out, transform (fit enc Xfit) X = Ok out ∧
    (v ≠ CNull → (0 < times_seen v train)%nat →
       cell_at out i j = Some (cell_of_count (times_seen v train))) ∧
    (times_seen v train = 0%nat → handle_unknown enc = "zero" →
       cell_at out i j = Some (cell_of_count 0)) ∧
    (times_seen v train = 0%nat → handle_unknown enc = "rare" →
       cell_at out i j = Some (cell_of_count 1)).
Proof.
  intros Hnd Hin _ Hdf _ Hj Hi _.
  assert (frequency_maps_ (fit enc Xfit) !! col = Some (value_counts train))
    as Htbl by (by apply fit_columns_lookup).
  destruct (transform_cell _ _ _ _ _ _ _ _ _ Hdf Hj Htbl Hi)
    as (out & Hout & Hcell).
  exists out. split; [done|]. rewrite Hcell. unfold map_fillna, fill_value.
  assert (times_seen v train = 0%nat → value_counts train !! v = None)
    as Hunseen.
  { intros Hzero. destruct (decide (v = CNull)) as [->|Hv].
    - apply value_counts_null.
    - by rewrite value_counts_lookup, Hzero. }
  split_and!.
  - intros Hv Hseen. rewrite value_counts_lookup by done.
    destruct (times_seen v train); [lia|done].
  - intros Hzero Hpolicy. rewrite (Hunseen Hzero). simpl.
    by rewrite decide_True.
  - intros Hzero Hpolicy. rewrite (Hunseen Hzero). simpl.
    rewrite decide_False; [done|]. by rewrite Hpolicy.
Qed.

Lemma transform_replaces_value_by_fit_count_witness :
  ∃ out,
    transform (fit (__init__ "zero") (Frame samples.category_frame))
      (Frame samples.query_frame) = Ok out ∧
    cell_at out 0 0 = Some (cell_of_count 3) ∧
    cell_at out 1 0 = Some (cell_of_count 0).
Proof.
  destruct (transform_replaces_value_by_fit_count
              (__init__ "zero") (Frame samples.category_frame)
              (Frame samples.query_frame) samples.query_frame
              (Name "category") (CStr <$> ["A"; "B"; "A"; "C"; "B"; "A"])
              [CStr "A"; CStr "Z"] 0 0 (CStr "A"))
    as (out & Hout & Hseen & _); [by_compute|by_compute|
      by repeat constructor|reflexivity|by_compute|reflexivity|
      reflexivity|exact I|].
  exists out. split; [exact Hout|]. split.
  - apply Hseen; [discriminate|]. vm_compute. lia.
  - vm_compute in Hout. injection Hout as <-. reflexivity.
Defined.

(** C1 fails on bare arrays.  [fit] on an array files the table of column
    [i] under the position [i], the label [pd.DataFrame(X)] gives it;
    [transform] labels the columns of an array [feature_0, feature_1, ...]
    and so finds no table.  For the array with the one column A, B, A the
    table is there, A twice and B once, and [transform] of the same array
    gives back A, B, A where the claim says 2, 1, 2. *)
Theorem transform_after_array_fit_is_not_encoded :
  let enc := fit (__init__ "zero") (Array more_samples.category_array) in
  frequency_maps_ enc !! Pos 0
    = Some (value_counts [CStr "A"; CStr "B"; CStr "A"]) ∧
  value_counts [CStr "A"; CStr "B"; CStr "A"] !! CStr "A" = Some 2%nat ∧
  feature_names_in_ enc = Some [Name "feature_0"] ∧
  frequency_maps_ enc !! Name "feature_0" = None ∧
  transform enc (Array more_samples.category_array)
    = Ok more_samples.category_array ∧
  cell_at more_samples.category_array 0 0 = Some (CStr "A").
Proof. split_and!; reflexivity || by_compute. Qed.

(** What happens to a bare array after a fit on a bare array: [fit] files
    the tables under the positions [0, 1, ...], [transform] labels the
    columns [feature_0, feature_1, ...], so no column is found fitted and
    the array comes back as it is. *)
Remark transform_array_after_array_fit policy (a a' : NDArray) :
  shape1 a' = shape1 a →
  transform (fit (__init__ policy) (Array a)) (Array a') = Ok a'.
Proof.
  intros Hshape.
  apply (transform_nothing_fitted _ (Array a')
           {| df_len := nd_len a';
              df_data := zip (fit_names (Array a)) (nd_cols a') |}).
  - simpl. unfold pd_DataFrame.
    by rewrite decide_True by (by rewrite length_fmap, length_seq).
  - intros col Hcol. simpl.
    rewrite fit_columns_lookup_notin; [done|].
    apply list_elem_of_fmap in Hcol as ([l c] & -> & Hcol). simpl in *.
    apply elem_of_zip_l, list_elem_of_fmap in Hcol as (n & -> & _).
    intros ([l' c'] & Heq & Hin)%list_elem_of_fmap. simpl in *.
    apply elem_of_zip_l, list_elem_of_fmap in Hin as (m & -> & _).
    discriminate Heq.
Qed.

(** C6, as the code has it: [transform] on an encoder that was never
    fitted does not fail; it finds no table and gives the cells of the
    batch back unchanged. *)
Theorem transform_before_fit_returns_values policy X :
  transform (__init__ policy) X = Ok (batch_values X).
Proof.
  assert (∃ df, transform_frame (__init__ policy) X = Ok df) as [df Hdf].
  { destruct X as [df|a]; simpl; eauto. }
  by apply (transform_nothing_fitted _ _ df).
Qed.

(** C6, as stated, fails: the call returns. *)
Lemma transform_before_fit_does_not_raise :
  transform (__init__ "zero") (Frame samples.query_frame)
    = Ok (values samples.query_frame) ∧
  ¬ ∃ e, transform (__init__ "zero") (Frame samples.query_frame) = Raise e.
Proof. split; [reflexivity|]. intros [e He]. discriminate He. Qed.

(** C7, as the code has it: [fit] never clears [frequency_maps_].  A
    second [fit], on a batch with unique labels, replaces the table of
    every column of the new batch by the table a fresh encoder would
    build (the counts of that column), records the names of the new batch,
    and keeps the table of every column the new batch does not have.  So
    the tables are those of a fresh encoder fitted on the new batch when
    every column fitted before is in the new batch; in particular fitting
    twice on the same batch is the same as fitting once. *)
Theorem refit_overwrites_columns_of_new_batch self X :
  NoDup (columns (fit_frame X)) →
  let fresh := fit (__init__ (handle_unknown self)) X in
  (∀ col, col ∈ columns (fit_frame X) →
     frequency_maps_ (fit self X) !! col = frequency_maps_ fresh !! col) ∧
  (∀ col train, (col, train) ∈ df_data (fit_frame X) →
     frequency_maps_ (fit self X) !! col = Some (value_counts train)) ∧
  feature_names_in_ (fit self X) = Some (fit_names X) ∧
  feature_names_in_ (fit self X) = feature_names_in_ fresh ∧
  (∀ col, col ∉ columns (fit_frame X) →
     frequency_maps_ (fit self X) !! col = frequency_maps_ self !! col) ∧
  ((∀ col, is_Some (frequency_maps_ self !! col) →
      col ∈ columns (fit_frame X)) →
     fit self X = fresh) ∧
  fit (fit self X) X = fit self X.
Proof.
  assert (∀ maps1 maps2 cols,
    (∀ col, col ∉ cols.*1 → maps1 !! col = maps2 !! col) →
    fit_columns maps1 cols = fit_columns maps2 cols) as Hext.
  { intros maps1 maps2 cols Hout. apply map_eq. intros col.
    destruct (decide (col ∈ cols.*1)) as [Hin|Hnot].
    - by apply fit_columns_lookup_in.
    - rewrite !fit_columns_lookup_notin by done. by apply Hout. }
  intros Hnd. simpl. split_and!.
  - intros col Hin. by apply fit_columns_lookup_in.
  - intros col train Hin. by apply fit_columns_lookup.
  - done.
  - done.
  - intros col Hnot. by apply fit_columns_lookup_notin.
  - intros Hdom. unfold fit. simpl. f_equal. apply Hext.
    intros col Hnot. rewrite lookup_empty.
    destruct (frequency_maps_ self !! col) eqn:Hcol; [|done].
    destruct Hnot. apply Hdom. by rewrite Hcol.
  - unfold fit. simpl. f_equal. apply Hext.
    intros col Hnot. by apply fit_columns_lookup_notin.
Qed.

Lemma refit_overwrites_columns_of_new_batch_witness :
  fit (fit (__init__ "rare") (Frame samples.category_frame))
      (Frame samples.query_frame)
  = fit (__init__ "rare") (Frame samples.query_frame).
Proof.
  destruct (refit_overwrites_columns_of_new_batch
              (fit (__init__ "rare") (Frame samples.category_frame))
              (Frame samples.query_frame) ltac:(by_compute))
    as (_ & _ & _ & _ & _ & Hsame & _).
  apply Hsame. intros col [tbl Hcol].
  destruct (decide (col = Name "category")) as [->|Hne];
    [by_compute|].
  exfalso. revert Hcol. simpl.
  rewrite lookup_insert_ne by (intros Heq; apply Hne; symmetry; exact Heq).
  rewrite lookup_empty. discriminate.
Defined.

(** C7, as stated, fails: the table of a column fitted earlier survives a
    [fit] on a batch without that column, and a fresh encoder has no such
    table. *)
Lemma refit_keeps_tables_of_other_columns :
  frequency_maps_
    (fit (fit (__init__ "zero") (Frame samples.category_frame))
         (Frame samples.broker_frame))
  ≠ frequency_maps_ (fit (__init__ "zero") (Frame samples.broker_frame)).
Proof.
  intros Heq. apply (f_equal (λ m, m !! Name "category")) in Heq.
  vm_compute in Heq. discriminate Heq.
Qed.

(** C9.  Whatever the state of the encoder, [transform] returns an array
    with the row count, the column count and the column lengths of the
    batch, and every column whose label has no frequency table is, at its
    position, exactly the column of the batch. *)
Theorem transform_keeps_unfitted_columns self X df :
  transform_frame self X = Ok df →
  NoDup (columns df) →
  ∃ out, transform self X = Ok out ∧
    nd_len out = nd_len (batch_values X) ∧
    length (nd_cols out) = length (nd_cols (batch_values X)) ∧
    (∀ j, length <$> nd_cols out !! j
          = length <$> nd_cols (batch_values X) !! j) ∧
    (∀ j col, columns df !! j = Some col →
       frequency_maps_ self !! col = None →
       nd_cols out !! j = nd_cols (batch_values X) !! j).
Proof.
  intros Hdf _. eexists. split; [by apply transform_eq|].
  destruct (transform_frame_values _ _ _ Hdf) as [Hlen Hcols].
  rewrite <- Hlen, <- Hcols. simpl. split_and!.
  - done.
  - by rewrite !length_fmap.
  - intros j. rewrite !list_lookup_fmap.
    destruct (df_data df !! j) as [[l vals]|]; [|done]. simpl.
    unfold transform_column. simpl.
    destruct (frequency_maps_ self !! l); simpl; [|done].
    by rewrite length_fmap.
  - intros j col Hj Hnone. unfold columns in Hj.
    rewrite list_lookup_fmap in Hj. rewrite !list_lookup_fmap.
    destruct (df_data df !! j) as [c|]; [|done]. simpl in *.
    injection Hj as <-. by rewrite transform_column_unfitted.
Qed.

Lemma transform_keeps_unfitted_columns_witness :
  ∃ out,
    transform (fit (__init__ "zero") (Frame samples.category_frame))
      (Frame samples.query_frame) = Ok out ∧
    nd_len out = 2%nat ∧
    nd_cols out !! 1%nat = Some [CStr "Manhattan"; CStr "Queens"].
Proof.
  destruct (transform_keeps_unfitted_columns
              (fit (__init__ "zero") (Frame samples.category_frame))
              (Frame samples.query_frame) samples.query_frame)
    as (out & Hout & Hlen & _ & _ & Hsame); [reflexivity|by_compute|].
  exists out. split; [exact Hout|]. split; [exact Hlen|].
  apply (Hsame 1%nat (Name "sublocality")); reflexivity.
Defined.



End encoder_claims.

(** ** Strings *)
Section strings.
Implicit Types (s t u sep : string) (l : list string).

Lemma string_app_cons a s t : String a s +:+ t = String a (s +:+ t).
Proof. reflexivity. Qed.

Lemma string_app_assoc s t u : (s +:+ t) +:+ u = s +:+ (t +:+ u).
Proof. induction s as [|a s IH]; [done|]. by rewrite !string_app_cons, IH. Qed.

Lemma string_app_nil_r s : s +:+ "" = s.
Proof. induction s as [|a s IH]; [done|]. by rewrite string_app_cons, IH. Qed.

Lemma join_cons_cons sep s t l :
  join sep (s :: t :: l) = s +:+ sep +:+ join sep (t :: l).
Proof. done. Qed.

Lemma join_mentions sep l s : s ∈ l → mentions (join sep l) s.
Proof.
  induction l as [|t l IH]; intros Hin; [by apply elem_of_nil in Hin|].
  destruct l as [|t' l].
  - apply list_elem_of_singleton in Hin as ->.
    exists "", "". simpl. by rewrite string_app_nil_r.
  - rewrite join_cons_cons. apply elem_of_cons in Hin as [->|Hin].
    + by exists "", (sep +:+ join sep (t' :: l)).
    + destruct (IH Hin) as (pre & post & ->).
      exists (t +:+ sep +:+ pre), post. by rewrite !string_app_assoc.
Qed.

Lemma mentions_app_l s t part : mentions t part → mentions (s +:+ t) part.
Proof.
  intros (pre & post & ->). exists (s +:+ pre), post.
  by rewrite string_app_assoc.
Qed.

Lemma mentions_app_r s t part : mentions s part → mentions (s +:+ t) part.
Proof.
  intros (pre & post & ->). exists pre, (post +:+ t).
  by rewrite !string_app_assoc.
Qed.

(** The [repr] of a list shows the [repr] of each element. *)
Lemma repr_list_mentions l s : s ∈ l → mentions (repr_list l) (repr_str s).
Proof.
  intros Hin. unfold repr_list.
  apply mentions_app_l, mentions_app_r, join_mentions.
  apply list_elem_of_fmap. eauto.
Qed.

(** The expected feature names are shown in single quotes. *)
Lemma repr_expected_feature s :
  s ∈ config.EXPECTED_FEATURES → repr_str s = "'" +:+ s +:+ "'".
Proof.
  unfold config.EXPECTED_FEATURES. rewrite !elem_of_cons, elem_of_nil.
  intros [->|[->|[->|[->|[->|[->|[]]]]]]]; reflexivity.
Qed.
End strings.

(** ** Frames and records *)
Section frames.
Implicit Types (df data : DataFrame) (cols : list (Label * list Cell)).
Implicit Types (l : Label) (c : list Cell) (fs : list string).
Implicit Types (input_data : gmap string Cell).

Lemma filter_none {A} (P : A → Prop) `{∀ x, Decision (P x)} (xs : list A) :
  (∀ x, x ∈ xs → ¬ P x) → filter P xs = [].
Proof.
  induction xs as [|x xs IH]; intros Hnone; [done|].
  rewrite filter_cons_False by (apply Hnone; by left).
  apply IH. intros y Hy. apply Hnone. by right.
Qed.

(** With unique labels, selecting by label finds exactly the column. *)
Lemma filter_label_singleton cols l c :
  NoDup cols.*1 → (l, c) ∈ cols →
  filter (λ col, col.1 = l) cols = [(l, c)].
Proof.
  induction cols as [|[l' c'] cols IH]; intros Hnd Hin.
  { by apply elem_of_nil in Hin. }
  rewrite fmap_cons in Hnd. apply NoDup_cons in Hnd as [Hl' Hnd].
  apply elem_of_cons in Hin as [[= <- <-]|Hin].
  - rewrite filter_cons_True by done. f_equal.
    apply filter_none. intros [l2 c2] Hin2 Heq.
    simpl in *. subst. apply Hl'. apply list_elem_of_fmap.
    by exists (l, c2).
  - rewrite filter_cons_False; [by apply IH|].
    simpl. intros ->. apply Hl'. apply list_elem_of_fmap. by exists (l, c).
Qed.

Lemma df_column_lookup df l c :
  NoDup (columns df) → (l, c) ∈ df_data df → df_column df l = c.
Proof.
  intros Hnd Hin. unfold df_column.
  by rewrite (elem_of_list_to_map_1 _ _ _ Hnd Hin).
Qed.

(** [df[fs]] on a frame with unique labels that has all the columns
    asked for: those columns, in the order asked. *)
Lemma getitem_columns_present df fs :
  NoDup (columns df) →
  (∀ f, f ∈ fs → Name f ∈ columns df) →
  predict.getitem_columns df fs =
    Ok {| df_len := df_len df;
          df_data := (λ f, (Name f, df_column df (Name f))) <$> fs |}.
Proof.
  intros Hnd Hall. unfold predict.getitem_columns.
  replace (filter (λ n, Name n ∉ columns df) fs) with (@nil string).
  2:{ symmetry. apply filter_none. intros f Hf Hnot. by apply Hnot, Hall. }
  do 2 f_equal. induction fs as [|f fs IH]; [done|].
  rewrite bind_cons, fmap_cons, IH.
  2:{ intros f' Hf'. apply Hall. by right. }
  assert (Name f ∈ columns df) as Hf by (apply Hall; by left).
  apply list_elem_of_fmap in Hf as ([l c] & Heq & Hin). simpl in Heq.
  subst l. rewrite (filter_label_singleton _ _ c) by done.
  by rewrite (df_column_lookup _ _ c).
Qed.

Lemma frame_of_record_labels input_data :
  NoDup (columns (predict.frame_of_record input_data)).
Proof.
  unfold columns, predict.frame_of_record. simpl.
  rewrite <- list_fmap_compose.
  replace (fst ∘ (λ kv : string * Cell, (Name kv.1, [kv.2])))
    with (Name ∘ (fst : string * Cell → string)) by done.
  rewrite list_fmap_compose. apply NoDup_fmap_2.
  - by intros ?? [=].
  - apply NoDup_fst_map_to_list.
Qed.

Lemma frame_of_record_column input_data f v :
  input_data !! f = Some v →
  (Name f, [v]) ∈ df_data (predict.frame_of_record input_data).
Proof.
  intros Hf. unfold predict.frame_of_record. simpl.
  apply list_elem_of_fmap. exists (f, v). split; [done|].
  by apply elem_of_map_to_list.
Qed.

(** [prepare_features] on a record that has every expected field: the
    single row with exactly those fields, in the expected order. *)
Lemma prepare_features_present input_data expected :
  let fs := default config.EXPECTED_FEATURES expected in
  (∀ f, f ∈ fs → is_Some (input_data !! f)) →
  predict.prepare_features input_data expected =
    Ok (single_row input_data fs).
Proof.
  unfold predict.prepare_features.
  generalize (default config.EXPECTED_FEATURES expected).
  intros fs Hall. cbv zeta.
  replace (filter (λ f, input_data !! f = None) fs) with (@nil string).
  2:{ symmetry. apply filter_none. intros f Hf Hnone.
      destruct (Hall f Hf) as [v Hv]. congruence. }
  rewrite getitem_columns_present.
  - unfold single_row. do 2 f_equal.
    apply list_fmap_ext. intros k f Hk.
    destruct (Hall f) as [v Hv]; [by eapply list_elem_of_lookup_2|].
    rewrite Hv. simpl. f_equal.
    apply df_column_lookup; [apply frame_of_record_labels|].
    by apply frame_of_record_column.
  - apply frame_of_record_labels.
  - intros f Hf. destruct (Hall f Hf) as [v Hv].
    apply list_elem_of_fmap. exists (Name f, [v]). split; [done|].
    by apply frame_of_record_column.
Qed.

(** [prepare_features] on a record that lacks an expected field. *)
Lemma prepare_features_missing input_data f :
  f ∈ config.EXPECTED_FEATURES → input_data !! f = None →
  predict.prepare_features input_data None =
    Raise (ValueError
      ("Missing required features: " +:+
       repr_list (filter (λ f, input_data !! f = None)
                    config.EXPECTED_FEATURES))).
Proof.
  intros Hf Hnone. unfold predict.prepare_features. simpl.
  assert (f ∈ filter (λ f, input_data !! f = None) config.EXPECTED_FEATURES)
    as Hin by (by apply list_elem_of_filter).
  destruct (filter _ _); [by apply elem_of_nil in Hin|done].
Qed.

(** A row of a frame, read as a record. *)
Lemma row_cells_lookup cols i f c :
  NoDup cols.*1 → (Name f, c) ∈ cols →
  predict.row_cells cols i !! f = Some (default CNull (c !! i)).
Proof.
  induction cols as [|[l' c'] cols IH]; intros Hnd Hin.
  { by apply elem_of_nil in Hin. }
  rewrite fmap_cons in Hnd. apply NoDup_cons in Hnd as [Hl' Hnd].
  apply elem_of_cons in Hin as [[= <- <-]|Hin]; simpl.
  - by rewrite lookup_insert_eq.
  - destruct l' as [n|k]; [|by apply IH].
    rewrite lookup_insert_ne; [by apply IH|].
    intros ->. apply Hl'. apply list_elem_of_fmap. by exists (Name f, c).
Qed.

Lemma single_row_columns input_data fs :
  columns (single_row input_data fs) = Name <$> fs.
Proof. unfold columns, single_row. simpl. by rewrite <- list_fmap_compose. Qed.

Lemma single_row_rows input_data fs :
  df_rows (single_row input_data fs)
  = [(λ f, default CNull (input_data !! f)) <$> fs].
Proof.
  unfold df_rows, single_row. simpl. f_equal.
  by rewrite <- list_fmap_compose.
Qed.
End frames.

(** ** The inference pipeline *)
Section pipeline.
Variable joblib_load_model : Result predict.Model.
Variable joblib_load_metadata : Result predict.Metadata.
Variable np_expm1 : pyfloat → pyfloat.

Abbreviation load_model_and_metadata :=
  (predict.load_model_and_metadata joblib_load_model joblib_load_metadata).
Abbreviation predict_price :=
  (predict.predict_price joblib_load_model joblib_load_metadata np_expm1).
Abbreviation batch_predict :=
  (predict.batch_predict joblib_load_model joblib_load_metadata np_expm1).
Abbreviation serve :=
  (predict.serve joblib_load_model joblib_load_metadata np_expm1).

Implicit Types (st : predict.Process) (m : predict.Model).
Implicit Types (md : predict.Metadata) (input_data : gmap string Cell).

(** Once both slots of the cache are filled, loading returns them and
    changes nothing. *)
Lemma load_when_loaded st m md :
  predict._model (predict._model_cache st) = Some m →
  predict._metadata (predict._model_cache st) = Some md →
  load_model_and_metadata st = (Ok (Some m, Some md), st).
Proof.
  intros Hm Hmd. unfold predict.load_model_and_metadata. simpl.
  unfold_py. rewrite Hm, Hmd. simpl. by rewrite Hm, Hmd.
Qed.

(** Loading never calls the model. *)
Lemma load_keeps_calls st r st' :
  load_model_and_metadata st = (r, st') →
  predict.predict_calls st' = predict.predict_calls st.
Proof.
  unfold predict.load_model_and_metadata. simpl. unfold_py.
  destruct (predict._model (predict._model_cache st)),
    (predict._metadata (predict._model_cache st)),
    joblib_load_model as [m'|], joblib_load_metadata as [md'|];
    simpl; try (by intros [= <- <-]);
    destruct (predict.metadata_name md'); by intros [= <- <-].
Qed.

(** [predict_price] after a successful load. *)
Lemma predict_price_raises_before_model st st' model metadata input_data e
    use_log_target :
  load_model_and_metadata st = (Ok (model, metadata), st') →
  predict.prepare_features input_data None = Raise e →
  predict_price input_data use_log_target st = (Raise e, st').
Proof.
  intros Hload Hprep. unfold predict.predict_price. unfold_py.
  by rewrite Hload, Hprep.
Qed.

Lemma predict_price_calls_model st st' m metadata input_data df
    use_log_target :
  load_model_and_metadata st = (Ok (Some m, metadata), st') →
  predict.prepare_features input_data None = Ok df →
  predict_price input_data use_log_target st =
    (price_from np_expm1 m df use_log_target,
     {| predict._model_cache := predict._model_cache st';
        predict.predict_calls := predict.predict_calls st' ++ [df] |}).
Proof.
  intros Hload Hprep. unfold predict.predict_price, price_from. unfold_py.
  rewrite Hload, Hprep.
  destruct (predict.predict m df) as [[|x log]|e]; done.
Qed.

(** With a filled cache, the outcome of [predict_price] is a function of
    the cached model and the request, and the cache stays as it is. *)
Lemma predict_price_when_loaded st m md input_data use_log_target :
  predict._model (predict._model_cache st) = Some m →
  predict._metadata (predict._model_cache st) = Some md →
  (predict_price input_data use_log_target st).1 =
    (df ← predict.prepare_features input_data None;
     price_from np_expm1 m df use_log_target) ∧
  predict._model_cache (predict_price input_data use_log_target st).2 =
    predict._model_cache st.
Proof.
  intros Hm Hmd. pose proof (load_when_loaded _ _ _ Hm Hmd) as Hload.
  destruct (predict.prepare_features input_data None) as [df|e] eqn:Hprep.
  - by rewrite (predict_price_calls_model _ _ _ _ _ _ _ Hload Hprep).
  - by rewrite (predict_price_raises_before_model _ _ _ _ _ _ _ Hload Hprep).
Qed.

Lemma serve_keeps_cache st m md requests :
  predict._model (predict._model_cache st) = Some m →
  predict._metadata (predict._model_cache st) = Some md →
  predict._model_cache (serve requests st) = predict._model_cache st.
Proof.
  revert st. induction requests as [|r requests IH]; intros st Hm Hmd;
    [done|].
  simpl. destruct (predict_price_when_loaded st m md r true Hm Hmd)
    as [_ Hcache].
  rewrite IH; rewrite ?Hcache; done.
Qed.
Lemma price_from_single_row m (f : list Label → list Cell → pyfloat)
    input_data fs :
  row_independent m f →
  price_from np_expm1 m (single_row input_data fs) true
  = Ok (np_expm1 (f (Name <$> fs)
                    ((λ n, default CNull (input_data !! n)) <$> fs))).
Proof.
  intros Hrows. unfold price_from.
  by rewrite Hrows, single_row_columns, single_row_rows.
Qed.

(** C3.  For a record with all six expected fields, [predict_price] hands
    the model exactly one frame, the single row with the six fields in
    the expected order, and returns [expm1] of the scalar the model
    emits for it. *)
Theorem predict_price_is_expm1_of_model_output
    st st' m metadata input_data (s : pyfloat) :
  load_model_and_metadata st = (Ok (Some m, metadata), st') →
  (∀ f, f ∈ config.EXPECTED_FEATURES → is_Some (input_data !! f)) →
  predict.predict m (single_row input_data config.EXPECTED_FEATURES)
    = Ok [s] →
  (predict_price input_data true st).1 = Ok (np_expm1 s) ∧
  predict.predict_calls (predict_price input_data true st).2 =
    (predict.predict_calls st ++
       [single_row input_data config.EXPECTED_FEATURES])%list.
Proof.
  intros Hload Hall Hs.
  pose proof (prepare_features_present input_data None Hall) as Hprep.
  simpl in Hprep.
  rewrite (predict_price_calls_model _ _ _ _ _ _ _ Hload Hprep). simpl.
  unfold price_from. rewrite Hs. split; [done|].
  by rewrite (load_keeps_calls _ _ _ Hload).
Qed.

(** C4.  For a record that lacks at least one expected field,
    [predict_price] raises the [ValueError] of [prepare_features] (the
    missing-feature error); its message shows, in quotes, every expected
    field the record lacks; and the model is not called. *)
Theorem predict_price_reports_every_missing_feature
    st st' model metadata input_data use_log_target :
  load_model_and_metadata st = (Ok (model, metadata), st') →
  (∃ f, f ∈ config.EXPECTED_FEATURES ∧ input_data !! f = None) →
  ∃ msg,
    predict_price input_data use_log_target st
      = (Raise (ValueError msg), st') ∧
    (∀ f, f ∈ config.EXPECTED_FEATURES → input_data !! f = None →
       mentions msg ("'" +:+ f +:+ "'")) ∧
    predict.predict_calls st' = predict.predict_calls st.
Proof.
  intros Hload (f0 & Hf0 & Hnone0).
  pose proof (prepare_features_missing input_data f0 Hf0 Hnone0) as Hprep.
  eexists. split; [|split].
  - by apply (predict_price_raises_before_model _ _ _ _ _ _ _ Hload Hprep).
  - intros f Hf Hnone. apply mentions_app_l.
    rewrite <- (repr_expected_feature f Hf).
    apply repr_list_mentions. by apply list_elem_of_filter.
  - by apply (load_keeps_calls _ _ _ Hload).
Qed.

(** C8.  With a model and metadata in the cache, the outcome of
    [predict_price] on a record is the same whatever requests were served
    in between: nothing is drawn at random and nothing that a request
    leaves behind is read by a later one. *)
Theorem predict_price_is_deterministic
    st m md (requests : list (gmap string Cell)) input_data :
  predict._model (predict._model_cache st) = Some m →
  predict._metadata (predict._model_cache st) = Some md →
  (predict_price input_data true (serve requests st)).1
    = (predict_price input_data true st).1.
Proof.
  intros Hm Hmd.
  pose proof (serve_keeps_cache st m md requests Hm Hmd) as Hcache.
  destruct (predict_price_when_loaded st m md input_data true Hm Hmd)
    as [-> _].
  destruct (predict_price_when_loaded (serve requests st) m md input_data
              true) as [-> _]; by rewrite ?Hcache.
Qed.

(** The frame [batch_predict] selects, row by row. *)
Lemma selected_rows data (fs : list string) :
  df_rows {| df_len := df_len data;
             df_data := (λ f, (Name f, df_column data (Name f))) <$> fs |}
  = (λ i, (λ f, default CNull (df_column data (Name f) !! i)) <$> fs)
      <$> seq 0 (df_len data).
Proof.
  unfold df_rows. simpl. apply list_fmap_ext. intros k i _.
  by rewrite <- list_fmap_compose.
Qed.

(** Where the two entry points agree.  [batch_predict] takes the feature
    list from the metadata and [predict_price] takes it from [config]; when
    the metadata names no list, or the same list, and the model maps each
    row on its own, [batch_predict] returns one price per row, in row
    order, and the price at index [i] is what [predict_price] returns for
    row [i] alone. *)
Theorem batch_predict_agrees_with_predict_price
    st st' m md data (f : list Label → list Cell → pyfloat) :
  load_model_and_metadata st = (Ok (Some m, Some md), st') →
  predict.metadata_features (Some md) = Ok config.EXPECTED_FEATURES →
  row_independent m f →
  NoDup (columns data) →
  (∀ n, n ∈ config.EXPECTED_FEATURES → Name n ∈ columns data) →
  ∃ prices,
    (batch_predict data st).1 = Ok prices ∧
    length prices = df_len data ∧
    ∀ i, (i < df_len data)%nat →
      ∃ p, prices !! i = Some p ∧
           (predict_price (predict.row_record data i) true st).1 = Ok p.
Proof.
  intros Hload Hfeatures Hrows Hnd Hall.
  pose proof (getitem_columns_present data _ Hnd Hall) as Hsel.
  set (labels := (Name <$> config.EXPECTED_FEATURES)).
  set (row := λ i, (λ f, default CNull (df_column data (Name f) !! i))
                     <$> config.EXPECTED_FEATURES).
  exists (np_expm1 <$> (f labels <$> (row <$> seq 0 (df_len data)))).
  split; [|split].
  - unfold predict.batch_predict. unfold_py.
    rewrite Hload, Hfeatures, Hsel, Hrows, selected_rows. reflexivity.
  - by rewrite !length_fmap, length_seq.
  - intros i Hi. exists (np_expm1 (f labels (row i))). split.
    { rewrite !list_lookup_fmap, lookup_seq_lt by done. done. }
    assert (∀ n, n ∈ config.EXPECTED_FEATURES →
              predict.row_record data i !! n
              = Some (default CNull (df_column data (Name n) !! i)))
      as Hrow.
    { intros n Hn. apply Hall, list_elem_of_fmap in Hn as ([l c] & Hl & Hin).
      simpl in Hl. subst l. rewrite (df_column_lookup data _ c) by done.
      by apply row_cells_lookup. }
    assert ((λ n, default CNull (predict.row_record data i !! n))
              <$> config.EXPECTED_FEATURES = row i) as Hsame.
    { apply list_fmap_ext. intros k n Hk. simpl.
      by rewrite Hrow by (by eapply list_elem_of_lookup_2). }
    assert (predict.prepare_features (predict.row_record data i) None
            = Ok (single_row (predict.row_record data i)
                    config.EXPECTED_FEATURES)) as Hprep.
    { apply (prepare_features_present _ None).
      intros n Hn. by rewrite Hrow. }
    rewrite (predict_price_calls_model _ _ _ _ _ _ _ Hload Hprep).
    cbn [fst]. rewrite (price_from_single_row _ f) by done.
    by rewrite Hsame.
Qed.
End pipeline.

(** ** Price categories *)
Section categories.
Implicit Types (price : pyfloat) (n : Z).

Lemma float_ge_negb_lt price n :
  is_number price → float_ge price n = negb (float_lt price n).
Proof.
  destruct price as [q|[]|]; [|done|done|by intros Hnan; destruct Hnan].
  intros _. simpl.
  destruct (decide (q < Qc_of_Z n)%Qc) as [Hlt|Hge].
  - rewrite (bool_decide_eq_true_2 _ Hlt). apply bool_decide_eq_false_2.
    by apply Qclt_not_le.
  - rewrite (bool_decide_eq_false_2 _ Hge). apply bool_decide_eq_true_2.
    by apply Qcnot_lt_le.
Qed.

Lemma float_lt_mono price n n' :
  (n ≤ n')%Z → float_lt price n = true → float_lt price n' = true.
Proof.
  intros Hle. destruct price as [q|[]|]; simpl; [|done..].
  rewrite !bool_decide_eq_true. intros Hlt.
  apply (Qclt_le_trans _ (Qc_of_Z n)); [exact Hlt|].
  exact (proj1 (Z2Qc_inj_le n n') Hle).
Qed.

(** C2.  For every price that is a number: the label is
    ["Budget-Friendly"] exactly when the price is below 400000,
    ["Luxury"] exactly when it is at or above 2000000, and ["Mid-Range"]
    exactly when it is neither; 400000 itself is ["Mid-Range"] and
    2000000 itself is ["Luxury"]. *)
Theorem get_price_category_thresholds price :
  is_number price →
  (predict.get_price_category price = "Budget-Friendly"
     ↔ float_lt price 400000 = true) ∧
  (predict.get_price_category price = "Luxury"
     ↔ float_ge price 2000000 = true) ∧
  (predict.get_price_category price = "Mid-Range"
     ↔ float_lt price 400000 = false ∧ float_ge price 2000000 = false) ∧
  predict.get_price_category (FNum (Qc_of_Z 400000)) = "Mid-Range" ∧
  predict.get_price_category (FNum (Qc_of_Z 2000000)) = "Luxury".
Proof.
  intros Hnum. rewrite (float_ge_negb_lt _ _ Hnum).
  unfold predict.get_price_category.
  change (config.PRICE_RANGES !!! "budget") with 400000%Z.
  change (config.PRICE_RANGES !!! "luxury") with 2000000%Z.
  pose proof (float_lt_mono price 400000 2000000) as Hmono.
  destruct (float_lt price 400000) eqn:Hb,
    (float_lt price 2000000) eqn:Hl; simpl;
    try (specialize (Hmono ltac:(lia) eq_refl); discriminate Hmono);
    repeat split; try done; try (intros [??]; done).
Qed.

(** NaN is outside the statement above: both comparisons are false on
    it, so the last branch is taken. *)
Remark get_price_category_nan : predict.get_price_category FNaN = "Luxury".
Proof. reflexivity. Qed.
End categories.

Lemma get_price_category_thresholds_witness :
  predict.get_price_category (FNum (Qc_of_Z 399999)) = "Budget-Friendly" ∧
  predict.get_price_category (FInf false) = "Luxury".
Proof.
  split.
  - destruct (get_price_category_thresholds (FNum (Qc_of_Z 399999)))
      as ([_ Hbudget] & _); [discriminate|].
    apply Hbudget. reflexivity.
  - destruct (get_price_category_thresholds (FInf false))
      as (_ & [_ Hluxury] & _); [discriminate|].
    apply Hluxury. reflexivity.
Defined.

(** ** Examples of the pipeline statements *)

Lemma compass_condo_is_complete f :
  f ∈ config.EXPECTED_FEATURES → is_Some (samples.compass_condo !! f).
Proof.
  unfold config.EXPECTED_FEATURES. rewrite !elem_of_cons, elem_of_nil.
  intros [->|[->|[->|[->|[->|[->|[]]]]]]]; vm_compute; eauto.
Defined.

Lemma toy_model_row_independent :
  row_independent samples.toy_model samples.first_cell_score.
Proof. intros df. reflexivity. Defined.

Lemma predict_price_is_expm1_of_model_output_witness :
  (predict.predict_price (Ok samples.toy_model)
     (Ok samples.metadata_from_train) samples.expm1
     samples.compass_condo true predict.startup).1
  = Ok (samples.expm1 (FNum (Qc_of_Z 0))).
Proof.
  apply (predict_price_is_expm1_of_model_output
           (Ok samples.toy_model) (Ok samples.metadata_from_train)
           samples.expm1 predict.startup
           (samples.loaded samples.metadata_from_train) samples.toy_model
           (Some samples.metadata_from_train)).
  - reflexivity.
  - exact compass_condo_is_complete.
  - vm_compute. reflexivity.
Defined.

Lemma predict_price_reports_every_missing_feature_witness :
  ∃ msg,
    predict.predict_price (Ok samples.toy_model)
      (Ok samples.metadata_from_train) samples.expm1
      (delete "beds" (delete "bath" samples.compass_condo)) true
      predict.startup
    = (Raise (ValueError msg), samples.loaded samples.metadata_from_train) ∧
    mentions msg "'beds'" ∧ mentions msg "'bath'".
Proof.
  destruct (predict_price_reports_every_missing_feature
              (Ok samples.toy_model) (Ok samples.metadata_from_train)
              samples.expm1 predict.startup
              (samples.loaded samples.metadata_from_train)
              (Some samples.toy_model) (Some samples.metadata_from_train)
              (delete "beds" (delete "bath" samples.compass_condo)) true)
    as (msg & Hraise & Hnames & _).
  - reflexivity.
  - exists "beds". split; [by_compute|reflexivity].
  - exists msg. split; [exact Hraise|]. split.
    + apply (Hnames "beds"); [by_compute|reflexivity].
    + apply (Hnames "bath"); [by_compute|reflexivity].
Defined.

Lemma predict_price_is_deterministic_witness :
  (predict.predict_price (Ok samples.toy_model)
     (Ok samples.metadata_from_train) samples.expm1
     samples.compass_condo true
     (predict.serve (Ok samples.toy_model) (Ok samples.metadata_from_train)
        samples.expm1 [samples.compass_condo; ∅]
        (samples.loaded samples.metadata_from_train))).1
  = (predict.predict_price (Ok samples.toy_model)
       (Ok samples.metadata_from_train) samples.expm1
       samples.compass_condo true
       (samples.loaded samples.metadata_from_train)).1.
Proof.
  apply (predict_price_is_deterministic
           (Ok samples.toy_model) (Ok samples.metadata_from_train)
           samples.expm1 (samples.loaded samples.metadata_from_train)
           samples.toy_model samples.metadata_from_train);
    reflexivity.
Defined.

Lemma batch_predict_agrees_with_predict_price_witness :
  ∃ prices,
    (predict.batch_predict (Ok samples.toy_model)
       (Ok samples.metadata_from_train) samples.expm1
       samples.sample_properties predict.startup).1 = Ok prices ∧
    length prices = 2%nat ∧
    ∃ p, prices !! 1%nat = Some p ∧
      (predict.predict_price (Ok samples.toy_model)
         (Ok samples.metadata_from_train) samples.expm1
         (predict.row_record samples.sample_properties 1) true
         predict.startup).1 = Ok p.
Proof.
  destruct (batch_predict_agrees_with_predict_price
              (Ok samples.toy_model) (Ok samples.metadata_from_train)
              samples.expm1 predict.startup
              (samples.loaded samples.metadata_from_train)
              samples.toy_model samples.metadata_from_train
              samples.sample_properties samples.first_cell_score)
    as (prices & Hbatch & Hlen & Hsame).
  - reflexivity.
  - reflexivity.
  - exact toy_model_row_independent.
  - by_compute.
  - intros n Hn. revert Hn. unfold config.EXPECTED_FEATURES.
    rewrite !elem_of_cons, elem_of_nil.
    intros [->|[->|[->|[->|[->|[->|[]]]]]]]; by_compute.
  - exists prices. split; [exact Hbatch|]. split; [exact Hlen|].
    apply Hsame. simpl. lia.
Defined.

(** C5 fails on the code: [predict_price] loads the metadata and does not
    read its feature list, which [batch_predict] orders the columns by.
    Here the metadata lists the six features with [type] first; the model
    maps each row on its own (its score is read off the first cell of the
    row).  [batch_predict] hands it the columns in the order of the
    metadata, [predict_price] in the order of [config], and the prices for
    row 0 differ.  ([expm1] is exact at the two scores that occur, 0 and
    +inf.) *)
Lemma batch_predict_follows_metadata_order :
  row_independent samples.toy_model samples.first_cell_score ∧
  (predict.batch_predict (Ok samples.toy_model)
     (Ok samples.metadata_other_order) samples.expm1
     samples.sample_properties
     (samples.loaded samples.metadata_other_order)).1
  = Ok [FInf false; FInf false] ∧
  (predict.predict_price (Ok samples.toy_model)
     (Ok samples.metadata_other_order) samples.expm1
     (predict.row_record samples.sample_properties 0) true
     (samples.loaded samples.metadata_other_order)).1
  = Ok (FNum (Qc_of_Z 0)).
Proof.
  split; [exact toy_model_row_independent|].
  split; vm_compute; reflexivity.
Qed.

(** ** The first request of a process

    From [startup] the first request loads the model.  When both files load
    and the metadata has its name, the cache is filled and the request is
    served like any later one. *)
Lemma load_from_startup m md name :
  predict.metadata_name md = Ok name →
  predict.load_model_and_metadata (Ok m) (Ok md) predict.startup
  = (Ok (Some m, Some md),
     {| predict._model_cache :=
          {| predict._model := Some m; predict._metadata := Some md |};
        predict.predict_calls := [] |}).
Proof.
  intros Hname. unfold predict.load_model_and_metadata. simpl. unfold_py.
  simpl. by rewrite Hname.
Qed.

(** When the metadata lacks [model_info], the log line of [_load_model]
    raises after both slots of the cache were assigned: the first request
    fails with that [KeyError], and the next one finds the cache filled and
    is served. *)
Remark first_request_fails_on_the_log_line :
  let first :=
    predict.predict_price (Ok samples.toy_model)
      (Ok samples.metadata_without_name) samples.expm1
      samples.compass_condo true predict.startup in
  first.1 = Raise (KeyError "'model_info'") ∧
  first.2 = samples.loaded samples.metadata_without_name ∧
  (predict.predict_price (Ok samples.toy_model)
     (Ok samples.metadata_without_name) samples.expm1
     samples.compass_condo true first.2).1
  = Ok (FNum (Qc_of_Z 0)).
Proof. repeat split; vm_compute; reflexivity. Qed.

(** * More of the code *)

(** ** Frequency tables as histograms *)
Section histograms.
Implicit Types (v c : Cell) (s : list Cell) (tbl : gmap Cell nat).

Lemma times_seen_pos v s : v ∈ s → (0 < times_seen v s)%nat.
Proof.
  intros Hin. unfold times_seen.
  assert (v ∈ filter (λ c, c = v) s) as Hf by (by apply list_elem_of_filter).
  destruct (filter _ s); [by apply elem_of_nil in Hf|simpl; lia].
Qed.

Lemma times_seen_zero v s : times_seen v s = 0%nat → v ∉ s.
Proof.
  intros Hzero Hin. pose proof (times_seen_pos v s Hin). lia.
Qed.

Lemma times_seen_perm v s s' : s ≡ₚ s' → times_seen v s = times_seen v s'.
Proof. intros Hperm. unfold times_seen. by rewrite Hperm. Qed.

(** The table does not depend on the order of the rows. *)
Lemma value_counts_perm s s' : s ≡ₚ s' → value_counts s = value_counts s'.
Proof.
  intros Hperm. apply map_eq. intros v.
  destruct (decide (v = CNull)) as [->|Hv].
  - by rewrite !value_counts_null.
  - by rewrite !value_counts_lookup, (times_seen_perm v s s').
Qed.

(** The table has an entry exactly for the values of the column. *)
Lemma value_counts_is_Some s v :
  is_Some (value_counts s !! v) ↔ v ∈ s ∧ v ≠ CNull.
Proof.
  destruct (decide (v = CNull)) as [->|Hv].
  - rewrite value_counts_null. split; [by intros [? [=]]|by intros [_ []]].
  - rewrite value_counts_lookup by done. split.
    + destruct (times_seen v s) eqn:Hseen; [by intros [? [=]]|].
      intros _. split; [|done].
      destruct (decide (v ∈ s)) as [|Hnot]; [done|].
      assert (filter (λ c, c = v) s = []) as Hnil.
      { apply filter_none. intros c Hc ->. done. }
      unfold times_seen in Hseen. by rewrite Hnil in Hseen.
    + intros [Hin _]. pose proof (times_seen_pos v s Hin).
      destruct (times_seen v s); [lia|eauto].
Qed.

Lemma total_count_insert tbl c n :
  tbl !! c = None → total_count (<[c := n]> tbl) = (n + total_count tbl)%nat.
Proof.
  intros Hnone. unfold total_count.
  rewrite map_fold_insert_L; [done| |done]. intros. lia.
Qed.

Lemma total_count_bump tbl c :
  total_count (<[c := S (default 0%nat (tbl !! c))]> tbl)
  = S (total_count tbl).
Proof.
  destruct (tbl !! c) as [n|] eqn:Hc; simpl.
  - rewrite <- insert_delete_eq.
    rewrite total_count_insert by apply lookup_delete_eq.
    rewrite <- (insert_delete_id tbl c n Hc) at 2.
    rewrite total_count_insert by apply lookup_delete_eq. lia.
  - by rewrite total_count_insert.
Qed.

(** The counts add up to the number of cells that hold a value. *)
Lemma value_counts_total s :
  total_count (value_counts s) = length (filter (λ c, c ≠ CNull) s).
Proof.
  induction s as [|c s IH]; [done|].
  rewrite value_counts_cons.
  destruct (decide (c = CNull)) as [->|Hc].
  - by rewrite filter_cons_False by (by intros []).
  - rewrite filter_cons_True by done. simpl. rewrite <- IH.
    destruct c; by rewrite ?total_count_bump.
Qed.
End histograms.

(** ** More on the frequency encoder *)
Section encoder_extras.
Import utils.
Implicit Types (self enc : FrequencyEncoder) (X Xfit : Batch).
Implicit Types (df : DataFrame) (col : Label) (v : Cell).
Implicit Types (maps : gmap Label (gmap Cell nat)).
Implicit Types (cols : list (Label * list Cell)).

(** Fitting and transforming the same frame: every cell that holds a value
    is replaced by the number of rows of its column that hold that value,
    which is at least one. *)
Theorem fit_transform_gives_training_counts
    enc df col (vals : list Cell) (i j : nat) v :
  NoDup (columns df) →
  df_data df !! j = Some (col, vals) →
  vals !! i = Some v →
  v ≠ CNull →
  ∃ out, (fit_transform enc (Frame df)).2 = Ok out ∧
    cell_at out i j = Some (cell_of_count (times_seen v vals)) ∧
    (1 ≤ times_seen v vals)%nat.
Proof.
  intros Hnd Hj Hi Hv. unfold fit_transform. simpl.
  assert (frequency_maps_ (fit enc (Frame df)) !! col
          = Some (value_counts vals)) as Htbl.
  { apply fit_columns_lookup; [done|]. by eapply list_elem_of_lookup_2. }
  destruct (transform_cell (fit enc (Frame df)) (Frame df) df j col vals
              _ i v eq_refl Hj Htbl Hi) as (out & Hout & Hcell).
  pose proof (times_seen_pos v vals (list_elem_of_lookup_2 _ _ _ Hi)) as Hpos.
  exists out. split; [done|]. split; [|lia].
  rewrite Hcell. unfold map_fillna. rewrite value_counts_lookup by done.
  by destruct (times_seen v vals); [lia|].
Qed.

(** The tables [fit] builds do not depend on the order of the rows: two
    frames with the same labels whose columns hold the same values, each in
    any order, give the same tables. *)
Theorem fit_ignores_row_order enc df df' :
  Forall2 (λ c c', c.1 = c'.1 ∧ c.2 ≡ₚ c'.2) (df_data df) (df_data df') →
  frequency_maps_ (fit enc (Frame df)) = frequency_maps_ (fit enc (Frame df')).
Proof.
  intros Hsame. unfold fit. simpl. generalize (frequency_maps_ enc).
  induction Hsame as [|c c' cols cols' [Hl Hp] _ IH]; intros maps; [done|].
  rewrite !fit_columns_cons, Hl, (value_counts_perm _ _ Hp). apply IH.
Qed.

(** The table of a fitted column is the histogram of that column: it has an
    entry exactly for the values that occur in it (missing cells apart), and
    its counts add up to the number of cells that hold a value. *)
Theorem fitted_table_is_histogram enc X col (train : list Cell) :
  NoDup (columns (fit_frame X)) →
  (col, train) ∈ df_data (fit_frame X) →
  ∃ tbl, frequency_maps_ (fit enc X) !! col = Some tbl ∧
    (∀ v, is_Some (tbl !! v) ↔ v ∈ train ∧ v ≠ CNull) ∧
    total_count tbl = length (filter (λ c, c ≠ CNull) train).
Proof.
  intros Hnd Hin. exists (value_counts train). split_and!.
  - by apply fit_columns_lookup.
  - apply value_counts_is_Some.
  - apply value_counts_total.
Qed.

(** A missing cell in a fitted column is encoded like an unknown category,
    also when the column had missing cells at fit time: 0 under ['zero'],
    1 otherwise.  Labels are unique, at fit time and in the batch. *)
Theorem missing_cell_gets_fill_value
    enc Xfit X df col (train vals : list Cell) (i j : nat) :
  NoDup (columns (fit_frame Xfit)) →
  (col, train) ∈ df_data (fit_frame Xfit) →
  transform_frame (fit enc Xfit) X = Ok df →
  NoDup (columns df) →
  df_data df !! j = Some (col, vals) →
  vals !! i = Some CNull →
  ∃ out, transform (fit enc Xfit) X = Ok out ∧
    cell_at out i j =
      Some (cell_of_count (if decide (handle_unknown enc = "zero")
                           then 0 else 1)).
Proof.
  intros Hnd Hin Hdf _ Hj Hi.
  assert (frequency_maps_ (fit enc Xfit) !! col = Some (value_counts train))
    as Htbl by (by apply fit_columns_lookup).
  destruct (transform_cell _ _ _ _ _ _ _ _ _ Hdf Hj Htbl Hi)
    as (out & Hout & Hcell).
  exists out. split; [done|]. rewrite Hcell. unfold map_fillna.
  by rewrite value_counts_null.
Qed.

(** The policy is not validated: any [handle_unknown] other than ['zero']
    makes [transform] behave as under ['rare']. *)
Theorem unknown_policy_behaves_as_rare enc X :
  handle_unknown enc ≠ "zero" →
  transform enc X =
    transform {| handle_unknown := "rare";
                 frequency_maps_ := frequency_maps_ enc;
                 feature_names_in_ := feature_names_in_ enc |} X.
Proof.
  intros Hpolicy. unfold transform. simpl.
  destruct (transform_frame enc X) as [df|e] eqn:Hdf;
    (replace (transform_frame _ X) with (transform_frame enc X)
       by (by destruct X)); rewrite Hdf; [|done].
  simpl. do 3 f_equal. apply list_fmap_ext. intros k c _.
  unfold transform_column, fill_value. simpl.
  by rewrite decide_False.
Qed.

(** Under any policy other than ['zero'], after any series of [fit] calls,
    every cell [transform] writes in a fitted column of a batch with
    unique labels is a count of at least one: 0 never appears. *)
Theorem rare_policy_never_writes_zero
    policy (Xs : list Batch) X df col (vals : list Cell) tbl (i j : nat) v :
  policy ≠ "zero" →
  transform_frame (fit_all policy Xs) X = Ok df →
  NoDup (columns df) →
  df_data df !! j = Some (col, vals) →
  frequency_maps_ (fit_all policy Xs) !! col = Some tbl →
  vals !! i = Some v →
  ∃ out n, transform (fit_all policy Xs) X = Ok out ∧
    cell_at out i j = Some (cell_of_count n) ∧ (1 ≤ n)%nat.
Proof.
  intros Hpolicy Hdf _ Hj Htbl Hi.
  destruct (transform_cell _ _ _ _ _ _ _ _ _ Hdf Hj Htbl Hi)
    as (out & Hout & Hcell).
  exists out. eexists. split; [done|]. split; [exact Hcell|].
  unfold fill_value. rewrite fit_all_handle_unknown.
  rewrite decide_False by done.
  destruct (tbl !! v) as [n|] eqn:Hv; simpl; [|lia].
  by eapply (fit_all_positive policy Xs).
Qed.

Lemma fit_columns_is_Some maps cols col :
  is_Some (fit_columns maps cols !! col)
  ↔ is_Some (maps !! col) ∨ col ∈ cols.*1.
Proof.
  revert maps. induction cols as [|c cols IH]; intros maps.
  - simpl. rewrite elem_of_nil. tauto.
  - rewrite fit_columns_cons, IH, fmap_cons, elem_of_cons.
    destruct (decide (c.1 = col)) as [<-|Hne].
    + rewrite lookup_insert_eq. split; eauto.
    + rewrite lookup_insert_ne by done. split; [tauto|].
      intros [?|[?|?]]; [tauto|congruence|tauto].
Qed.

(** [fit] never drops a table: after a [fit] on a batch with unique labels
    there is a table for exactly the columns that had one before and the
    columns of the batch. *)
Theorem fit_only_adds_tables self X :
  NoDup (columns (fit_frame X)) →
  dom (frequency_maps_ (fit self X))
  = dom (frequency_maps_ self) ∪ list_to_set (columns (fit_frame X)).
Proof.
  intros _. apply set_eq. intros col.
  rewrite elem_of_union, !elem_of_dom, elem_of_list_to_set.
  apply fit_columns_is_Some.
Qed.

(** With unique column labels [transform] raises in one case only: a bare
    array whose number of columns differs from the number of names
    recorded by the last [fit]. *)
Theorem transform_raises_only_on_width_mismatch self X :
  NoDup (transform_labels self X) →
  (∃ e, transform self X = Raise e)
  ↔ ∃ a names, X = Array a ∧ feature_names_in_ self = Some names ∧
               length names ≠ shape1 a.
Proof.
  intros _. unfold transform. destruct X as [df|a]; simpl.
  - split; [by intros [e [=]]|by intros (a & names & [=] & _)].
  - unfold pd_DataFrame. destruct (feature_names_in_ self) as [names|].
    + case_decide as Hlen; simpl.
      * split; [by intros [e [=]]|].
        intros (a' & names' & [= <-] & [= <-] & Hne). done.
      * split; [|eauto]. intros _. by exists a, names.
    + simpl. split; [by intros [e [=]]|by intros (a' & names' & _ & [=] & _)].
Qed.

(** After a [fit] on a frame, the frame and its bare array of values are
    transformed alike: the columns of an array are matched to the fitted
    columns by position. *)
Theorem transform_values_like_frame enc df df' :
  columns df' = columns df →
  transform (fit enc (Frame df)) (Array (values df'))
  = transform (fit enc (Frame df)) (Frame df').
Proof.
  intros Hcols. unfold transform. simpl. unfold pd_DataFrame, shape1. simpl.
  rewrite decide_True by (by rewrite <- Hcols; unfold columns;
                          rewrite !length_fmap).
  simpl. rewrite <- Hcols. unfold columns. by rewrite zip_fst_snd.
Qed.

(** After a [fit] on a bare array the recorded names are [feature_0],
    [feature_1], ...: one per column and pairwise distinct; before any
    [fit] there are none. *)
Theorem feature_names_after_array_fit enc (a : NDArray) :
  ∃ names,
    get_feature_names_out (fit enc (Array a)) None = Some names ∧
    length names = shape1 a ∧
    NoDup names ∧
    (∀ k, (k < shape1 a)%nat →
          names !! k = Some (Name ("feature_" +:+ pretty k))) ∧
    ∀ policy, get_feature_names_out (__init__ policy) None = None.
Proof.
  exists ((λ k : nat, Name ("feature_" +:+ pretty k)) <$> seq 0 (shape1 a)).
  split; [reflexivity|]. split_and!.
  - by rewrite length_fmap, length_seq.
  - apply NoDup_fmap_2; [|apply NoDup_seq].
    intros k k' [= Heq]. change (pretty k = pretty k') in Heq.
    by apply (inj pretty) in Heq.
  - intros k Hk. by rewrite list_lookup_fmap, lookup_seq_lt.
  - done.
Qed.
End encoder_extras.

(** ** More on feature preparation *)
Section preparation.
Implicit Types (input_data : gmap string Cell) (df : DataFrame).

Lemma filter_ext_in {A} (P Q : A → Prop) `{∀ x, Decision (P x)}
    `{∀ x, Decision (Q x)} (xs : list A) :
  (∀ x, x ∈ xs → P x ↔ Q x) → filter P xs = filter Q xs.
Proof.
  induction xs as [|x xs IH]; intros Hiff; [done|].
  rewrite !filter_cons.
  rewrite IH by (intros y Hy; apply Hiff; by right).
  destruct (decide (P x)) as [HP|HP], (decide (Q x)) as [HQ|HQ];
    try done; exfalso; apply (Hiff x (list_elem_of_here _ _)) in HP ||
    apply (Hiff x (list_elem_of_here _ _)) in HQ; done.
Qed.

(** [prepare_features] succeeds exactly on the records that have every
    expected field. *)
Lemma prepare_features_Ok_iff input_data :
  (∃ df, predict.prepare_features input_data None = Ok df)
  ↔ ∀ f, f ∈ config.EXPECTED_FEATURES → is_Some (input_data !! f).
Proof.
  split.
  - intros [df Hdf] f Hf.
    destruct (input_data !! f) eqn:Hlook; [eauto|].
    by rewrite (prepare_features_missing _ f Hf Hlook) in Hdf.
  - intros Hall. eexists. by apply (prepare_features_present _ None).
Qed.

(** What [prepare_features] returns: one row, the six expected columns in
    the expected order, each holding the field of that name; a record gets
    this far only if it has all six fields. *)
Theorem prepare_features_result input_data df :
  predict.prepare_features input_data None = Ok df →
  df_len df = 1%nat ∧
  columns df = Name <$> config.EXPECTED_FEATURES ∧
  (∀ k f, config.EXPECTED_FEATURES !! k = Some f →
     ∃ v, input_data !! f = Some v ∧ df_data df !! k = Some (Name f, [v])).
Proof.
  intros Hdf.
  assert (∀ f, f ∈ config.EXPECTED_FEATURES → is_Some (input_data !! f))
    as Hall by (apply prepare_features_Ok_iff; eauto).
  rewrite (prepare_features_present _ None Hall) in Hdf.
  injection Hdf as <-. split_and!.
  - done.
  - apply single_row_columns.
  - intros k f Hk. destruct (Hall f) as [v Hv];
      [by eapply list_elem_of_lookup_2|].
    exists v. split; [done|]. unfold single_row.
    cbn [df_data]. rewrite list_lookup_fmap, Hk. simpl. by rewrite Hv.
Qed.

(** Fields beyond the six expected ones play no part: two records that
    agree on the expected fields are prepared alike, whether that is the
    same frame or the same error. *)
Theorem prepare_features_ignores_other_fields input_data input_data' :
  (∀ f, f ∈ config.EXPECTED_FEATURES → input_data !! f = input_data' !! f) →
  predict.prepare_features input_data None
  = predict.prepare_features input_data' None.
Proof.
  intros Hsame.
  destruct (decide (Forall (λ f, is_Some (input_data !! f))
                      config.EXPECTED_FEATURES)) as [Hall|Hnot].
  - rewrite Forall_forall in Hall.
    rewrite !(prepare_features_present _ None).
    + f_equal. unfold single_row. f_equal.
      apply list_fmap_ext. intros k f Hk.
      by rewrite Hsame by (by eapply list_elem_of_lookup_2).
    + intros f Hf. rewrite <- Hsame by done. by apply Hall.
    + done.
  - apply not_Forall_Exists, Exists_exists in Hnot as (f & Hf & Hnone);
      [|apply _].
    apply eq_None_not_Some in Hnone.
    rewrite (prepare_features_missing input_data f Hf Hnone).
    rewrite (prepare_features_missing input_data' f Hf)
      by (by rewrite <- Hsame).
    do 4 f_equal. apply filter_ext_in. intros g Hg. by rewrite Hsame.
Qed.

(** The page's own [prepare_features] checks nothing: on a complete record
    it builds the frame [predict.prepare_features] builds, on an incomplete
    one it fails with pandas' [KeyError] where [predict.prepare_features]
    raises its [ValueError]. *)
Theorem streamlit_prepare_features_vs_predict input_data :
  ((∀ f, f ∈ config.EXPECTED_FEATURES → is_Some (input_data !! f)) →
   streamlit_app.prepare_features input_data config.EXPECTED_FEATURES
   = predict.prepare_features input_data None) ∧
  ((∃ f, f ∈ config.EXPECTED_FEATURES ∧ input_data !! f = None) →
   ∃ msg msg',
     streamlit_app.prepare_features input_data config.EXPECTED_FEATURES
     = Raise (KeyError msg) ∧
     predict.prepare_features input_data None = Raise (ValueError msg')).
Proof.
  split.
  - intros Hall. rewrite (prepare_features_present _ None Hall).
    unfold streamlit_app.prepare_features.
    rewrite getitem_columns_present.
    + unfold single_row. do 2 f_equal.
      apply list_fmap_ext. intros k f Hk.
      destruct (Hall f) as [v Hv]; [by eapply list_elem_of_lookup_2|].
      rewrite Hv. simpl. f_equal.
      apply df_column_lookup; [apply frame_of_record_labels|].
      by apply frame_of_record_column.
    + apply frame_of_record_labels.
    + intros f Hf. destruct (Hall f Hf) as [v Hv].
      apply list_elem_of_fmap. exists (Name f, [v]). split; [done|].
      by apply frame_of_record_column.
  - intros (f & Hf & Hnone).
    rewrite (prepare_features_missing _ f Hf Hnone).
    unfold streamlit_app.prepare_features, predict.getitem_columns.
    assert (f ∈ filter (λ n, Name n ∉ columns
                               (predict.frame_of_record input_data))
                  config.EXPECTED_FEATURES) as Hin.
    { apply list_elem_of_filter. split; [|done].
      intros ([l c] & Hl & Hc)%list_elem_of_fmap. simpl in Hl. subst l.
      unfold predict.frame_of_record in Hc. simpl in Hc.
      apply list_elem_of_fmap in Hc as ([g v] & [= <- _] & Hgv).
      apply elem_of_map_to_list in Hgv. congruence. }
    destruct (filter _ config.EXPECTED_FEATURES) as [|g gs] eqn:Hfilter.
    + by apply elem_of_nil in Hin.
    + eauto.
Qed.
End preparation.

(** ** More on the model cache and the two entry points *)
Section serving.
Variable joblib_load_model : Result predict.Model.
Variable joblib_load_metadata : Result predict.Metadata.
Variable np_expm1 : pyfloat → pyfloat.

Abbreviation load_model_and_metadata :=
  (predict.load_model_and_metadata joblib_load_model joblib_load_metadata).
Abbreviation predict_price :=
  (predict.predict_price joblib_load_model joblib_load_metadata np_expm1).
Abbreviation batch_predict :=
  (predict.batch_predict joblib_load_model joblib_load_metadata np_expm1).
Abbreviation handle :=
  (predict.handle joblib_load_model joblib_load_metadata np_expm1).
Abbreviation run :=
  (predict.run joblib_load_model joblib_load_metadata np_expm1).
Abbreviation cached_predict :=
  (predict.cached_predict joblib_load_model joblib_load_metadata np_expm1).
Abbreviation serve_cached :=
  (predict.serve_cached joblib_load_model joblib_load_metadata np_expm1).

Implicit Types (st : predict.Process) (m : predict.Model).
Implicit Types (md : predict.Metadata) (input_data : gmap string Cell).
Implicit Types (data : DataFrame) (sv : predict.Server).

(** [predict_price], step by step. *)
Lemma predict_price_unfold input_data use_log_target st :
  predict_price input_data use_log_target st =
    match load_model_and_metadata st with
    | (Raise e, st') => (Raise e, st')
    | (Ok (model, metadata), st') =>
        match predict.prepare_features input_data None with
        | Raise e => (Raise e, st')
        | Ok df =>
            match model with
            | None =>
                (Raise (AttributeError
                          "'NoneType' object has no attribute 'predict'"),
                 st')
            | Some m =>
                (price_from np_expm1 m df use_log_target,
                 {| predict._model_cache := predict._model_cache st';
                    predict.predict_calls :=
                      (predict.predict_calls st' ++ [df])%list |})
            end
        end
    end.
Proof.
  unfold predict.predict_price, price_from. unfold_py.
  destruct (load_model_and_metadata st) as [[[model metadata]|e] st'];
    [|done].
  destruct (predict.prepare_features input_data None) as [df|e]; [|done].
  destruct model as [m|]; [|done].
  by destruct (predict.predict m df) as [[|x l]|e].
Qed.

(** [batch_predict], step by step. *)
Lemma batch_predict_unfold data st :
  batch_predict data st =
    match load_model_and_metadata st with
    | (Raise e, st') => (Raise e, st')
    | (Ok (model, metadata), st') =>
        match predict.metadata_features metadata with
        | Raise e => (Raise e, st')
        | Ok fs =>
            match predict.getitem_columns data fs with
            | Raise e => (Raise e, st')
            | Ok df =>
                match model with
                | None =>
                    (Raise (AttributeError
                              "'NoneType' object has no attribute 'predict'"),
                     st')
                | Some m =>
                    (match predict.predict m df with
                     | Ok log_predictions => Ok (np_expm1 <$> log_predictions)
                     | Raise e => Raise e
                     end,
                     {| predict._model_cache := predict._model_cache st';
                        predict.predict_calls :=
                          (predict.predict_calls st' ++ [df])%list |})
                end
            end
        end
    end.
Proof.
  unfold predict.batch_predict. unfold_py.
  destruct (load_model_and_metadata st) as [[[model metadata]|e] st'];
    [|done].
  destruct (predict.metadata_features metadata) as [fs|e]; [|done].
  destruct (predict.getitem_columns data fs) as [df|e]; [|done].
  destruct model as [m|]; [|done].
  by destruct (predict.predict m df) as [l|e].
Qed.

(** What loading leaves in the cache came from the files. *)
Lemma load_keeps_from_disk st r st' :
  load_model_and_metadata st = (r, st') →
  cache_from_disk joblib_load_model joblib_load_metadata st →
  cache_from_disk joblib_load_model joblib_load_metadata st'.
Proof.
  unfold predict.load_model_and_metadata, cache_from_disk. simpl. unfold_py.
  destruct (predict._model (predict._model_cache st)) as [m0|] eqn:Hm0;
    destruct (predict._metadata (predict._model_cache st)) as [md0|] eqn:Hmd0;
    simpl;
    (destruct joblib_load_model as [m1|e1] eqn:Hjm; simpl;
     [destruct joblib_load_metadata as [md1|e2] eqn:Hjmd; simpl;
      [destruct (predict.metadata_name md1) eqn:Hname; simpl|]|]);
    intros [= <- <-] [Hmodel Hmeta]; simpl; rewrite ?Hm0, ?Hmd0;
    naive_solver.
Qed.
Lemma handle_cache r st :
  predict._model_cache (handle r st)
  = predict._model_cache (load_model_and_metadata st).2.
Proof.
  destruct r as [input_data use_log_target|data]; simpl.
  - rewrite predict_price_unfold.
    destruct (load_model_and_metadata st) as [[[model metadata]|e] st'];
      [|done].
    destruct (predict.prepare_features input_data None); [|done].
    by destruct model.
  - rewrite batch_predict_unfold.
    destruct (load_model_and_metadata st) as [[[model metadata]|e] st'];
      [|done].
    destruct (predict.metadata_features metadata); [|done].
    destruct (predict.getitem_columns data _); [|done].
    by destruct model.
Qed.

Lemma cache_from_disk_ext st st' :
  predict._model_cache st = predict._model_cache st' →
  cache_from_disk joblib_load_model joblib_load_metadata st →
  cache_from_disk joblib_load_model joblib_load_metadata st'.
Proof. unfold cache_from_disk. by intros <-. Qed.

Lemma run_snoc requests r st :
  run (requests ++ [r]) st = handle r (run requests st).
Proof. unfold predict.run. by rewrite foldl_app. Qed.

(** Handling requests keeps the cache to what the files hold. *)
Lemma run_keeps_from_disk (requests : list predict.Request) st :
  cache_from_disk joblib_load_model joblib_load_metadata st →
  cache_from_disk joblib_load_model joblib_load_metadata (run requests st).
Proof.
  intros Hst. induction requests as [|r requests IH] using rev_ind; [done|].
  rewrite run_snoc.
  apply (cache_from_disk_ext (load_model_and_metadata (run requests st)).2);
    [by rewrite handle_cache|].
  destruct (load_model_and_metadata (run requests st)) as [r' st'] eqn:Hload.
  by apply (load_keeps_from_disk _ _ _ Hload).
Qed.

Lemma startup_from_disk :
  cache_from_disk joblib_load_model joblib_load_metadata predict.startup.
Proof. split; intros ? [=]. Qed.

(** Whatever requests a fresh process has handled, single or batch, failed
    or not: a model in its cache is the model file's content, metadata in
    its cache is the metadata file's content, and the metadata slot is
    filled only if the model slot is. *)
Theorem cache_only_holds_loaded_files (requests : list predict.Request) :
  cache_from_disk joblib_load_model joblib_load_metadata
    (run requests predict.startup).
Proof.
  apply run_keeps_from_disk. split; intros ? [=].
Qed.

(** With both files loadable and the model name in the metadata, loading
    succeeds from any state the process can be in. *)
Lemma load_succeeds_from_disk st m md name :
  cache_from_disk joblib_load_model joblib_load_metadata st →
  joblib_load_model = Ok m →
  joblib_load_metadata = Ok md →
  predict.metadata_name md = Ok name →
  ∃ st', load_model_and_metadata st = (Ok (Some m, Some md), st').
Proof.
  unfold predict.load_model_and_metadata, cache_from_disk. simpl. unfold_py.
  intros [Hmodel Hmeta] Hjm Hjmd Hname.
  destruct (predict._model (predict._model_cache st)) as [m0|] eqn:Hm0;
    destruct (predict._metadata (predict._model_cache st)) as [md0|] eqn:Hmd0;
    simpl; rewrite ?Hjm, ?Hjmd; simpl; rewrite ?Hname; simpl;
    rewrite ?Hm0, ?Hmd0; eauto.
  pose proof (Hmodel m0 eq_refl) as Heq1.
  destruct (Hmeta md0 eq_refl) as [Heq2 _].
  rewrite Hjm in Heq1. rewrite Hjmd in Heq2.
  injection Heq1 as <-. injection Heq2 as <-. eauto.
Qed.

(** With both files loadable and the model name in the metadata, a request
    gets the same answer whether it is the first of the process or comes
    after any other requests: the price computed from the model on disk. *)
Theorem every_request_is_served_from_the_files
    m md name (requests : list predict.Request) input_data use_log_target :
  joblib_load_model = Ok m →
  joblib_load_metadata = Ok md →
  predict.metadata_name md = Ok name →
  (predict_price input_data use_log_target
     (run requests predict.startup)).1
  = price_of np_expm1 m input_data use_log_target.
Proof.
  intros Hjm Hjmd Hname.
  destruct (load_succeeds_from_disk _ m md name
              (run_keeps_from_disk requests _ startup_from_disk)
              Hjm Hjmd Hname)
    as [st' Hload].
  rewrite predict_price_unfold, Hload. unfold price_of.
  by destruct (predict.prepare_features input_data None).
Qed.

(** When the model file cannot be loaded, every request, single or batch,
    raises the loader's exception and leaves the process exactly as it
    was: nothing is cached, the next request tries the file again. *)
Theorem failed_model_load_is_not_cached st e (requests : list predict.Request) :
  joblib_load_model = Raise e →
  predict._model (predict._model_cache st) = None →
  (∀ input_data use_log_target,
     predict_price input_data use_log_target st = (Raise e, st)) ∧
  (∀ data, batch_predict data st = (Raise e, st)) ∧
  run requests st = st.
Proof.
  intros Hjm Hnone.
  assert (∀ st, predict._model (predict._model_cache st) = None →
                load_model_and_metadata st = (Raise e, st)) as Hload.
  { intros st0 Hst0. unfold predict.load_model_and_metadata. simpl.
    unfold_py. by rewrite Hst0, Hjm. }
  assert (∀ r st, predict._model (predict._model_cache st) = None →
                  handle r st = st) as Hhandle.
  { intros [i u|d] st0 Hst0; simpl.
    - by rewrite predict_price_unfold, Hload.
    - by rewrite batch_predict_unfold, Hload. }
  split_and!.
  - intros. by rewrite predict_price_unfold, Hload.
  - intros. by rewrite batch_predict_unfold, Hload.
  - induction requests as [|r requests IH] using rev_ind; [done|].
    rewrite run_snoc, IH. by apply Hhandle.
Qed.

(** Once model and metadata are in the cache, the files are never read
    again: what the files hold by then makes no difference to any
    request. *)
Theorem loaded_cache_hides_the_files
    (other_model : Result predict.Model)
    (other_metadata : Result predict.Metadata) st m md :
  predict._model (predict._model_cache st) = Some m →
  predict._metadata (predict._model_cache st) = Some md →
  (∀ input_data use_log_target,
     predict.predict_price other_model other_metadata np_expm1
       input_data use_log_target st
     = predict_price input_data use_log_target st) ∧
  (∀ data,
     predict.batch_predict other_model other_metadata np_expm1 data st
     = batch_predict data st).
Proof.
  intros Hm Hmd.
  assert (∀ jm jmd,
    predict.load_model_and_metadata jm jmd st = (Ok (Some m, Some md), st))
    as Hload.
  { intros jm jmd. unfold predict.load_model_and_metadata. simpl.
    unfold_py. rewrite Hm, Hmd. simpl. by rewrite Hm, Hmd. }
  split.
  - intros. unfold predict.predict_price. unfold_py. by rewrite !Hload.
  - intros. unfold predict.batch_predict. unfold_py. by rewrite !Hload.
Qed.

(** A request leads to at most one call of [model.predict], however many
    rows a batch has. *)
Theorem at_most_one_model_call_per_request (r : predict.Request) st :
  ∃ extra,
    predict.predict_calls (handle r st)
    = (predict.predict_calls st ++ extra)%list ∧
    (length extra ≤ 1)%nat.
Proof.
  destruct (load_model_and_metadata st) as [res st'] eqn:Hload.
  pose proof (load_keeps_calls _ _ _ _ _ Hload) as Hcalls.
  assert (∃ extra, predict.predict_calls st'
                   = (predict.predict_calls st ++ extra)%list ∧
                   (length extra ≤ 1)%nat) as Hnone.
  { exists []. rewrite app_nil_r. split; [done|simpl; lia]. }
  assert (∀ df, ∃ extra, (predict.predict_calls st' ++ [df])%list
                   = (predict.predict_calls st ++ extra)%list ∧
                   (length extra ≤ 1)%nat) as Hone.
  { intros df. exists [df]. by rewrite Hcalls. }
  destruct r as [input_data use_log_target|data]; simpl.
  - rewrite predict_price_unfold, Hload.
    destruct res as [[model metadata]|e]; [|done].
    destruct (predict.prepare_features input_data None) as [df|e]; [|done].
    destruct model; [apply Hone|done].
  - rewrite batch_predict_unfold, Hload.
    destruct res as [[model metadata]|e]; [|done].
    destruct (predict.metadata_features metadata) as [fs|e]; [|done].
    destruct (predict.getitem_columns data fs) as [df|e]; [|done].
    destruct model; [apply Hone|done].
Qed.

(** A batch that lacks a column the metadata asks for makes
    [batch_predict] fail with pandas' [KeyError], before the model is
    called. *)
Theorem batch_predict_missing_column
    st st' model md (fs : list string) f data :
  load_model_and_metadata st = (Ok (model, Some md), st') →
  predict.metadata_features (Some md) = Ok fs →
  f ∈ fs →
  Name f ∉ columns data →
  ∃ msg, batch_predict data st = (Raise (KeyError msg), st') ∧
         predict.predict_calls st' = predict.predict_calls st.
Proof.
  intros Hload Hfs Hf Hmissing.
  rewrite batch_predict_unfold, Hload, Hfs.
  unfold predict.getitem_columns.
  assert (f ∈ filter (λ n, Name n ∉ columns data) fs) as Hin
    by (by apply list_elem_of_filter).
  destruct (filter _ fs) as [|g gs]; [by apply elem_of_nil in Hin|].
  eexists. split; [done|]. by apply (load_keeps_calls _ _ _ _ _ Hload).
Qed.

Lemma label_present_iff data l :
  l ∈ columns data ↔ filter (λ col, col.1 = l) (df_data data) ≠ [].
Proof.
  unfold columns. split.
  - intros ([l' c] & -> & Hin)%list_elem_of_fmap Hnil.
    assert ((l', c) ∈ filter (λ col, col.1 = (l', c).1) (df_data data))
      as Hf by (by apply list_elem_of_filter).
    rewrite Hnil in Hf. by apply elem_of_nil in Hf.
  - intros Hne.
    destruct (filter (λ col, col.1 = l) (df_data data)) as [|c cs] eqn:Hf;
      [done|].
    assert (c ∈ filter (λ col, col.1 = l) (df_data data)) as Hc
      by (rewrite Hf; by left).
    apply list_elem_of_filter in Hc as [<- Hc].
    apply list_elem_of_fmap. eauto.
Qed.

(** [data[names]] sees the columns labelled by [names] only. *)
Lemma getitem_columns_same_columns data data' (fs : list string) :
  df_len data = df_len data' →
  (∀ f, f ∈ fs →
     filter (λ col, col.1 = Name f) (df_data data)
     = filter (λ col, col.1 = Name f) (df_data data')) →
  predict.getitem_columns data fs = predict.getitem_columns data' fs.
Proof.
  intros Hlen Hsame. unfold predict.getitem_columns.
  rewrite (filter_ext_in (λ n, Name n ∉ columns data)
             (λ n, Name n ∉ columns data') fs).
  2:{ intros f Hf. by rewrite !label_present_iff, (Hsame f Hf). }
  destruct (filter _ fs); [|done]. rewrite Hlen. do 2 f_equal.
  induction fs as [|f fs IH]; [done|].
  rewrite !bind_cons, (Hsame f) by (by left).
  f_equal. apply IH. intros g Hg. apply Hsame. by right.
Qed.

(** [batch_predict] looks at the columns the metadata names and at nothing
    else: two batches of the same length that carry the same columns under
    those names get the same outcome, prices or error. *)
Theorem batch_predict_ignores_other_columns
    st st' model metadata (fs : list string) data data' :
  load_model_and_metadata st = (Ok (model, metadata), st') →
  predict.metadata_features metadata = Ok fs →
  df_len data = df_len data' →
  (∀ f, f ∈ fs →
     filter (λ col, col.1 = Name f) (df_data data)
     = filter (λ col, col.1 = Name f) (df_data data')) →
  batch_predict data st = batch_predict data' st.
Proof.
  intros Hload Hfs Hlen Hsame.
  rewrite !batch_predict_unfold, Hload, Hfs.
  by rewrite (getitem_columns_same_columns data data' fs Hlen Hsame).
Qed.
(** The outcome of [predict_price] on a complete record, case by case: an
    exception of the model reaches the caller as it is (nothing wraps it),
    an empty output makes [log_prediction[0]] raise [IndexError], and
    otherwise the first output is returned, through [expm1] unless
    [use_log_target] is off. *)
Theorem predict_price_outcome
    st st' m metadata input_data use_log_target :
  load_model_and_metadata st = (Ok (Some m, metadata), st') →
  (∀ f, f ∈ config.EXPECTED_FEATURES → is_Some (input_data !! f)) →
  (predict_price input_data use_log_target st).1 =
    match predict.predict m
            (single_row input_data config.EXPECTED_FEATURES) with
    | Raise e => Raise e
    | Ok [] =>
        Raise (IndexError "index 0 is out of bounds for axis 0 with size 0")
    | Ok (s :: _) => Ok (if use_log_target then np_expm1 s else s)
    end.
Proof.
  intros Hload Hall.
  rewrite predict_price_unfold, Hload.
  rewrite (prepare_features_present _ None Hall). simpl.
  unfold price_from.
  by destruct (predict.predict m _) as [[|s l]|e].
Qed.

(** One step of [cached_predict] with a loaded model and a store whose
    entries are right. *)
Lemma cached_predict_step sv m md t :
  predict._model (predict._model_cache (predict.process sv)) = Some m →
  predict._metadata (predict._model_cache (predict.process sv)) = Some md →
  lru_sound np_expm1 m (predict.lru sv) →
  (cached_predict t sv).1
    = price_of np_expm1 m (predict.tuple_to_dict t) true ∧
  predict._model_cache (predict.process (cached_predict t sv).2)
    = predict._model_cache (predict.process sv) ∧
  lru_sound np_expm1 m (predict.lru (cached_predict t sv).2) ∧
  ((length (predict.lru sv) ≤ predict.maxsize)%nat →
   (length (predict.lru (cached_predict t sv).2) ≤ predict.maxsize)%nat).
Proof.
  intros Hm Hmd Hsound. unfold predict.cached_predict.
  destruct (filter (λ kv, kv.1 = t) (predict.lru sv)) as [|[t' v] hits]
    eqn:Hfilter.
  - destruct (predict_price_when_loaded joblib_load_model
                joblib_load_metadata np_expm1 (predict.process sv) m md
                (predict.tuple_to_dict t) true Hm Hmd) as [Hval Hcache].
    destruct (predict_price (predict.tuple_to_dict t) true
                (predict.process sv)) as [[v|e] st'] eqn:Hpp;
      cbn [fst snd predict.process predict.lru] in *;
      (split; [done|]); (split; [done|]); (split; [|]).
    + intros t' v' Hin. apply subseteq_take in Hin.
      apply elem_of_cons in Hin as [[= -> ->]|Hin]; [by symmetry|].
      by apply Hsound.
    + intros _. rewrite length_take. lia.
    + done.
    + done.
  - assert ((t', v) ∈ filter (λ kv, kv.1 = t) (predict.lru sv)) as Hin
      by (rewrite Hfilter; by left).
    apply list_elem_of_filter in Hin as [Heq Hin]. simpl in Heq. subst t'.
    simpl. split_and!.
    + symmetry. by apply Hsound.
    + done.
    + intros t' v' Hin'. apply elem_of_cons in Hin' as [[= -> ->]|Hin'].
      * by apply Hsound.
      * apply list_elem_of_filter in Hin' as [_ Hin']. by apply Hsound.
    + intros Hlen.
      pose proof (filter_app_complement (λ kv, kv.1 = t) (predict.lru sv))
        as Hperm.
      apply Permutation_length in Hperm.
      rewrite length_app, Hfilter in Hperm. simpl in Hperm. lia.
Qed.

(** [cached_predict] is [predict_price] with a memory: starting from an
    empty store and a loaded model, after any series of calls the answer
    for a tuple is the answer [predict_price] gives for the record built
    from it, and the store never holds more than 1000 entries. *)
Theorem cached_predict_agrees_with_predict_price
    st m md (tuples : list (list Cell)) (t : list Cell) :
  predict._model (predict._model_cache st) = Some m →
  predict._metadata (predict._model_cache st) = Some md →
  let sv := serve_cached tuples {| predict.process := st; predict.lru := [] |} in
  (cached_predict t sv).1
    = (predict_price (predict.tuple_to_dict t) true st).1 ∧
  (length (predict.lru sv) ≤ 1000)%nat.
Proof.
  intros Hm Hmd.
  assert (let sv := serve_cached tuples
                      {| predict.process := st; predict.lru := [] |} in
          predict._model_cache (predict.process sv)
            = predict._model_cache st ∧
          lru_sound np_expm1 m (predict.lru sv) ∧
          (length (predict.lru sv) ≤ predict.maxsize)%nat) as Hinv.
  { induction tuples as [|t0 tuples IH] using rev_ind.
    - simpl. split; [done|]. split; [|lia]. intros ?? Hin.
      by apply elem_of_nil in Hin.
    - replace (serve_cached (tuples ++ [t0])
                 {| predict.process := st; predict.lru := [] |})
        with (cached_predict t0
                (serve_cached tuples
                   {| predict.process := st; predict.lru := [] |})).2
        by (unfold predict.serve_cached; by rewrite foldl_app).
      cbv zeta in IH. destruct IH as (Hcache & Hsound & Hlen). cbv zeta.
      destruct (cached_predict_step _ m md t0
                  ltac:(by rewrite Hcache) ltac:(by rewrite Hcache) Hsound)
        as (_ & Hcache' & Hsound' & Hlen').
      split_and!; [by rewrite Hcache'|done|by apply Hlen']. }
  cbv zeta in *. destruct Hinv as (Hcache & Hsound & Hlen).
  destruct (cached_predict_step _ m md t
              ltac:(by rewrite Hcache) ltac:(by rewrite Hcache) Hsound)
    as (-> & _).
  destruct (predict_price_when_loaded joblib_load_model
              joblib_load_metadata np_expm1 st m md
              (predict.tuple_to_dict t) true Hm Hmd) as [-> _].
  done.
Qed.

(** What the store of [cached_predict] remembers: a price that was
    returned is returned again for the same tuple without touching the
    process (no load, no model call); an exception is not remembered. *)
Theorem cached_predict_store sv (t : list Cell) :
  (∀ v, (cached_predict t sv).1 = Ok v →
     let sv' := (cached_predict t sv).2 in
     (cached_predict t sv').1 = Ok v ∧
     predict.process (cached_predict t sv').2 = predict.process sv') ∧
  (∀ e, (cached_predict t sv).1 = Raise e →
     predict.lru (cached_predict t sv).2 = predict.lru sv).
Proof.
  assert (∀ v rest st',
    let sv' := {| predict.process := st'; predict.lru := (t, v) :: rest |} in
    (cached_predict t sv').1 = Ok v ∧
    predict.process (cached_predict t sv').2 = predict.process sv') as Hhit.
  { intros v rest st'. unfold predict.cached_predict. simpl.
    by rewrite filter_cons_True by done. }
  split.
  - intros v. unfold predict.cached_predict at 1 2 3.
    destruct (filter (λ kv, kv.1 = t) (predict.lru sv)) as [|[t' v'] hits].
    + destruct (predict_price _ true _) as [[v'|e] st']; [|done].
      simpl. intros [= ->]. apply Hhit.
    + simpl. intros [= ->]. apply Hhit.
  - intros e. unfold predict.cached_predict.
    destruct (filter (λ kv, kv.1 = t) (predict.lru sv)) as [|[t' v'] hits];
      [|done].
    by destruct (predict_price _ true _) as [[v'|e'] st'].
Qed.
End serving.

(** ** More on price categories *)
Section category_extras.
Implicit Types (price : pyfloat) (n : Z).

Lemma float_lt_antitone price price' n :
  float_le price price' → float_lt price' n = true → float_lt price n = true.
Proof.
  destruct price as [p|[]|], price' as [q|[]|]; simpl; try done.
  rewrite !bool_decide_eq_true. intros Hle Hlt.
  by apply (Qcle_lt_trans _ q).
Qed.

(** [get_price_category] always returns one of its three labels, and a
    higher price never gets a lower label. *)
Theorem get_price_category_monotone :
  (∀ price, predict.get_price_category price
            ∈ ["Budget-Friendly"; "Mid-Range"; "Luxury"]) ∧
  (∀ price price', float_le price price' →
     (category_rank (predict.get_price_category price)
      ≤ category_rank (predict.get_price_category price'))%nat).
Proof.
  split.
  - intros price. unfold predict.get_price_category.
    destruct (float_lt price _); [set_solver|].
    destruct (float_lt price _); set_solver.
  - intros price price' Hle. unfold predict.get_price_category.
    pose proof (float_lt_antitone price price'
                  (config.PRICE_RANGES !!! "budget") Hle) as Hb.
    pose proof (float_lt_antitone price price'
                  (config.PRICE_RANGES !!! "luxury") Hle) as Hl.
    destruct (float_lt price' (config.PRICE_RANGES !!! "budget"));
      [rewrite Hb by done; reflexivity|].
    destruct (float_lt price' (config.PRICE_RANGES !!! "luxury")).
    + rewrite Hl by done.
      destruct (float_lt price _); vm_compute; lia.
    + destruct (float_lt price _); [vm_compute; lia|].
      destruct (float_lt price _); vm_compute; lia.
Qed.

(** The category the Streamlit page shows is decided by its own
    thresholds, 500000 and 1500000.  For a price it shows a category for,
    the label is the one [get_price_category] gives exactly when the price
    is neither in [400000, 500000) nor in [1500000, 2000000). *)
Theorem streamlit_category_vs_get_price_category price :
  is_number price →
  streamlit_app.truthy price = true →
  (streamlit_app.price_category (Some price)
     = Some (predict.get_price_category price)
   ↔ ¬ ((float_ge price 400000 = true ∧ float_lt price 500000 = true) ∨
        (float_ge price 1500000 = true ∧ float_lt price 2000000 = true))).
Proof.
  intros Hnum Htruthy. unfold streamlit_app.price_category.
  rewrite Htruthy. rewrite !(float_ge_negb_lt _ _ Hnum).
  unfold predict.get_price_category.
  change (config.PRICE_RANGES !!! "budget") with 400000%Z.
  change (config.PRICE_RANGES !!! "luxury") with 2000000%Z.
  pose proof (float_lt_mono price 400000 500000 ltac:(lia)) as H1.
  pose proof (float_lt_mono price 500000 1500000 ltac:(lia)) as H2.
  pose proof (float_lt_mono price 1500000 2000000 ltac:(lia)) as H3.
  destruct (float_lt price 400000), (float_lt price 500000),
    (float_lt price 1500000), (float_lt price 2000000); simpl;
    try (specialize (H1 eq_refl)); try (specialize (H2 eq_refl));
    try (specialize (H3 eq_refl)); try discriminate;
    (split; [intros Heq [[? ?]|[? ?]]; try discriminate
            |intros Hno; try reflexivity; exfalso; apply Hno; auto]).
Qed.
End category_extras.

(** ** The preprocessor of the training script *)
Section preprocessor.
Implicit Types (X_train : DataFrame) (cols high low : list string).

Lemma column_of_label X_train (l : Label) :
  l ∈ columns X_train → ∃ s, (l, s) ∈ df_data X_train.
Proof.
  intros ([l' s] & -> & Hin)%list_elem_of_fmap. by exists s.
Qed.

Lemma getitem_column_Raise X_train col :
  Name col ∉ columns X_train →
  train.getitem_column X_train col = Raise (KeyError (repr_str col)).
Proof.
  rewrite label_present_iff. unfold train.getitem_column.
  destruct (filter _ (df_data X_train)); [done|]. intros []. done.
Qed.

(** With unique labels the test of the [if] is about one column. *)
Lemma is_high_cardinality_Series X_train col s :
  NoDup (columns X_train) → (Name col, s) ∈ df_data X_train →
  train.is_high_cardinality X_train col
  = Ok (bool_decide (50 < train.nunique s)%nat).
Proof.
  intros Hnd Hin. unfold train.is_high_cardinality, train.getitem_column.
  by rewrite (filter_label_singleton _ _ s).
Qed.

(** The sorting loop puts every feature on exactly one side, by its number
    of distinct values. *)
Lemma split_by_cardinality_spec X_train cols high low :
  NoDup (columns X_train) →
  train.split_by_cardinality X_train cols = Ok (high, low) →
  high ++ low ≡ₚ cols ∧
  (∀ c s, c ∈ high → (Name c, s) ∈ df_data X_train →
          (50 < train.nunique s)%nat) ∧
  (∀ c s, c ∈ low → (Name c, s) ∈ df_data X_train →
          (train.nunique s ≤ 50)%nat).
Proof.
  intros Hnd. revert high low.
  induction cols as [|c cols IH]; intros high low; simpl.
  { intros [= <- <-]. split; [done|]. split; intros ?? Hin;
      by apply elem_of_nil in Hin. }
  destruct (train.is_high_cardinality X_train c) as [b|e] eqn:Hb; [|done].
  simpl.
  destruct (train.split_by_cardinality X_train cols) as [[h l]|e] eqn:Hsplit;
    [|done].
  simpl. destruct (IH h l eq_refl) as (Hperm & Hhigh & Hlow).
  assert (∀ s, (Name c, s) ∈ df_data X_train →
               b = bool_decide (50 < train.nunique s)%nat) as Hc.
  { intros s Hin. rewrite (is_high_cardinality_Series _ _ s) in Hb by done.
    by injection Hb. }
  destruct b; intros [= <- <-]; split_and!.
  - simpl. by rewrite Hperm.
  - intros c' s [->|Hin]%elem_of_cons Hs; [|by eapply Hhigh].
    apply (bool_decide_unpack _). by rewrite <- (Hc s Hs).
  - done.
  - rewrite <- Permutation_middle. simpl. by rewrite Hperm.
  - done.
  - intros c' s [->|Hin]%elem_of_cons Hs; [|by eapply Hlow].
    pose proof (Hc s Hs) as Hfalse. symmetry in Hfalse.
    apply bool_decide_eq_false in Hfalse. lia.
Qed.

Lemma split_by_cardinality_Ok X_train cols :
  NoDup (columns X_train) →
  (∀ c, c ∈ cols → Name c ∈ columns X_train) →
  ∃ high low, train.split_by_cardinality X_train cols = Ok (high, low).
Proof.
  intros Hnd. induction cols as [|c cols IH]; intros Hall; simpl; [eauto|].
  destruct (column_of_label X_train (Name c)) as [s Hs];
    [apply Hall; by left|].
  rewrite (is_high_cardinality_Series _ _ s) by done.
  destruct IH as (h & l & ->); [intros c' Hc'; apply Hall; by right|].
  simpl. destruct (bool_decide _); eauto.
Qed.

Lemma split_by_cardinality_Raise X_train cols c :
  NoDup (columns X_train) →
  c ∈ cols → Name c ∉ columns X_train →
  ∃ msg, train.split_by_cardinality X_train cols = Raise (KeyError msg).
Proof.
  intros Hnd. induction cols as [|c' cols IH]; intros Hin Hmissing;
    [by apply elem_of_nil in Hin|]. simpl.
  destruct (decide (Name c' ∈ columns X_train)) as [Hc'|Hc'].
  - destruct (column_of_label X_train (Name c') Hc') as [s Hs].
    rewrite (is_high_cardinality_Series _ _ s) by done. simpl.
    apply elem_of_cons in Hin as [->|Hin]; [done|].
    destruct (IH Hin Hmissing) as [msg ->]. eauto.
  - unfold train.is_high_cardinality.
    rewrite (getitem_column_Raise _ _ Hc'). eauto.
Qed.

(** [create_preprocessor] on training data with unique column labels.
    When the three categorical columns are there, every one of the six
    expected features is handed to exactly one transformer, no transformer
    is left without columns, and a categorical column goes to the
    frequency encoder (with policy ['zero']) exactly when it has more than
    50 distinct values.  Without one of the categorical columns it fails
    with [KeyError]. *)
Theorem create_preprocessor_routes_every_feature X_train :
  NoDup (columns X_train) →
  ((∀ c, c ∈ train.categorical_features → Name c ∈ columns X_train) →
   ∃ transformers,
     train.create_preprocessor X_train = Ok transformers ∧
     concat (transformers.*2) ≡ₚ config.EXPECTED_FEATURES ∧
     (∀ t, t ∈ transformers → t.2 ≠ []) ∧
     (∀ c s, c ∈ train.categorical_features →
        (Name c, s) ∈ df_data X_train →
        ((∃ cols, ("categorical_high", train.FrequencyEncoder "zero", cols)
                    ∈ transformers ∧ c ∈ cols)
         ↔ (50 < train.nunique s)%nat))) ∧
  ((∃ c, c ∈ train.categorical_features ∧ Name c ∉ columns X_train) →
   ∃ msg, train.create_preprocessor X_train = Raise (KeyError msg)).
Proof.
  intros Hnd. split.
  - intros Hall. unfold train.create_preprocessor.
    destruct (split_by_cardinality_Ok _ _ Hnd Hall) as (high & low & Hsplit).
    rewrite Hsplit. simpl.
    destruct (split_by_cardinality_spec _ _ _ _ Hnd Hsplit)
      as (Hperm & Hhigh & Hlow).
    eexists. split; [done|]. split_and!.
    + transitivity ((high ++ low) ++ train.numerical_features)%list.
      { destruct high, low; simpl; by rewrite ?app_nil_r, <- ?app_assoc. }
      rewrite Hperm. by_compute.
    + intros t Ht. destruct high, low; simpl in Ht;
        repeat (apply elem_of_cons in Ht as [->|Ht]); try done;
        by apply elem_of_nil in Ht.
    + intros c s Hc Hs. split.
      * intros (cols & Hin & Hccols).
        assert (cols = high) as ->.
        { destruct high, low; simpl in Hin;
            repeat (apply elem_of_cons in Hin as [Hin|Hin]);
            try (by apply elem_of_nil in Hin); by injection Hin. }
        by apply (Hhigh c s).
      * intros Hcard.
        assert (c ∈ (high ++ low)%list) as Hin by (by rewrite Hperm).
        apply elem_of_app in Hin as [Hin|Hin].
        -- exists high. split; [|done].
           destruct high; [by apply elem_of_nil in Hin|]. by left.
        -- pose proof (Hlow c s Hin Hs). lia.
  - intros (c & Hc & Hmissing). unfold train.create_preprocessor.
    destruct (split_by_cardinality_Raise _ _ c Hnd Hc Hmissing) as [msg ->].
    eauto.
Qed.

(** A training frame that carries a categorical label twice is refused at
    the [if]: the comparison is a series, not a truth value. *)
Remark create_preprocessor_repeated_label X_train (s s' : list Cell)
    (others : list (Label * list Cell)) :
  df_data X_train
  = (Name "brokertitle", s) :: (Name "brokertitle", s') :: others →
  ∃ msg, train.create_preprocessor X_train = Raise (ValueError msg).
Proof.
  intros Hdata.
  assert (∃ msg, train.is_high_cardinality X_train "brokertitle"
                 = Raise (ValueError msg)) as [msg Hmsg].
  { unfold train.is_high_cardinality, train.getitem_column.
    rewrite Hdata, !filter_cons, !decide_True by reflexivity.
    destruct (filter _ others); simpl; eauto. }
  exists msg. unfold train.create_preprocessor, train.categorical_features.
  cbn [train.split_by_cardinality]. by rewrite Hmsg.
Qed.
End preprocessor.

(** ** The callers: the Flask route and the Streamlit batch page *)
Section callers.
Variable joblib_load_model : Result predict.Model.
Variable joblib_load_metadata : Result predict.Metadata.
Variable np_expm1 : pyfloat → pyfloat.
Variable model_performance : predict.Metadata → Result unit.

Abbreviation flask_predict :=
  (flask_app.predict joblib_load_model joblib_load_metadata np_expm1
     model_performance).
Abbreviation batch_predictions :=
  (streamlit_app.batch_predictions joblib_load_model joblib_load_metadata
     np_expm1).

Implicit Types (st : predict.Process) (g : flask_app.Globals).
Implicit Types (input_data : gmap string Cell) (df : DataFrame).

Lemma complete_record_is_not_empty input_data :
  (∀ f, f ∈ config.EXPECTED_FEATURES → is_Some (input_data !! f)) →
  input_data ≠ ∅.
Proof.
  intros Hall ->. destruct (Hall "beds") as [v Hv]; [set_solver|].
  by rewrite lookup_empty in Hv.
Qed.

Lemma complete_record_misses_nothing input_data :
  (∀ f, f ∈ config.EXPECTED_FEATURES → is_Some (input_data !! f)) →
  filter (λ f, input_data !! f = None) config.EXPECTED_FEATURES = [].
Proof.
  intros Hall.
  destruct (filter _ config.EXPECTED_FEATURES) as [|f fs] eqn:Hfilter;
    [done|].
  assert (f ∈ filter (λ f, input_data !! f = None) config.EXPECTED_FEATURES)
    as Hin by (rewrite Hfilter; by left).
  apply list_elem_of_filter in Hin as [Hnone Hf].
  destruct (Hall f Hf) as [v Hv]. congruence.
Qed.

(** The route checks the six features itself, before it calls
    [predict_price]: a JSON object that lacks one is answered with status
    400 and the route's own text, and the process is left as it was (no
    file is read, the model is not called).  The check of
    [prepare_features] behind it is never the one that answers. *)
Theorem flask_predict_checks_features_first g m md input_data f st :
  flask_app.model g = Some m →
  flask_app.metadata g = Some md →
  input_data ≠ ∅ →
  f ∈ config.EXPECTED_FEATURES →
  input_data !! f = None →
  flask_predict g (flask_app.JsonObject input_data) st
  = (flask_app.Error 400
       ("Missing required features: " +:+
        repr_list (filter (λ f, input_data !! f = None)
                     config.EXPECTED_FEATURES)), st) ∧
  f ∈ filter (λ f, input_data !! f = None) config.EXPECTED_FEATURES.
Proof.
  intros Hm Hmd Hne Hf Hnone.
  assert (f ∈ filter (λ f, input_data !! f = None) config.EXPECTED_FEATURES)
    as Hin by (by apply list_elem_of_filter).
  split; [|done]. unfold flask_app.predict. rewrite Hm, Hmd.
  rewrite decide_False by done.
  destruct (filter _ config.EXPECTED_FEATURES) as [|g' gs];
    [by apply elem_of_nil in Hin|done].
Qed.

(** With metadata that has no ['data_info'] entry (the layout
    [train.save_model] writes) the route never answers 200; a complete
    request for which [predict_price] returns a price is answered with
    status 500 and the text of the [KeyError], after the model has been
    called. *)
Theorem flask_predict_needs_data_info g md :
  flask_app.metadata g = Some md →
  predict.data_info md = None →
  (∀ body st, flask_app.status_code (flask_predict g body st).1 ≠ 200%nat) ∧
  (∀ m name input_data st price st',
     flask_app.model g = Some m →
     predict.metadata_name md = Ok name →
     (∀ f, f ∈ config.EXPECTED_FEATURES → is_Some (input_data !! f)) →
     predict.predict_price joblib_load_model joblib_load_metadata np_expm1
       input_data true st = (Ok price, st') →
     flask_predict g (flask_app.JsonObject input_data) st
     = (flask_app.Error 500 "Prediction error: 'data_info'", st')).
Proof.
  intros Hmd Hinfo.
  assert (∀ price, ∃ e,
            flask_app.response model_performance md price = Raise e)
    as Hresponse.
  { intros price. unfold flask_app.response, flask_app.selected_features.
    rewrite Hinfo. destruct (predict.metadata_name md); simpl; eauto. }
  split.
  - intros body st. unfold flask_app.predict. rewrite Hmd.
    destruct (flask_app.model g); [|simpl; lia].
    destruct body as [|input_data]; [simpl; lia|].
    case_decide; [simpl; lia|].
    destruct (filter _ config.EXPECTED_FEATURES); [|simpl; lia].
    destruct (predict.predict_price _ _ _ _ _ _) as [[price|e] st'].
    + destruct (Hresponse price) as [e ->]. by destruct e.
    + by destruct e.
  - intros m name input_data st price st' Hm Hname Hall Hprice.
    unfold flask_app.predict. rewrite Hm, Hmd.
    rewrite decide_False by (by apply complete_record_is_not_empty).
    rewrite (complete_record_misses_nothing _ Hall), Hprice.
    unfold flask_app.response, flask_app.selected_features.
    by rewrite Hname, Hinfo.
Qed.

Lemma filter_label_bind (fs : list string) (f : string)
    (cols : list (Label * list Cell)) :
  NoDup fs → f ∈ fs →
  filter (λ col, col.1 = Name f)
    (fs ≫= (λ n, filter (λ col : Label * list Cell, col.1 = Name n) cols))
  = filter (λ col, col.1 = Name f) cols.
Proof.
  assert (∀ l : list string, f ∉ l →
    filter (λ col : Label * list Cell, col.1 = Name f)
      (l ≫= (λ n, filter (λ col : Label * list Cell, col.1 = Name n) cols))
    = []) as Hother.
  { induction l as [|n l IH]; intros Hnotin; [done|].
    rewrite bind_cons, filter_app, IH by set_solver.
    rewrite app_nil_r. apply filter_none. intros col Hcol Hf.
    apply list_elem_of_filter in Hcol as [Hn _].
    rewrite Hf in Hn. injection Hn as <-. set_solver. }
  induction fs as [|n fs IH]; intros Hnd Hin; [by apply elem_of_nil in Hin|].
  apply NoDup_cons in Hnd as [Hn Hnd].
  rewrite bind_cons, filter_app.
  destruct (decide (n = f)) as [->|Hne].
  - rewrite Hother, app_nil_r by done.
    apply list_filter_filter_l. done.
  - apply elem_of_cons in Hin as [->|Hin]; [done|].
    rewrite IH by done.
    rewrite (filter_none (λ col : Label * list Cell, col.1 = Name f)
               (filter (λ col : Label * list Cell, col.1 = Name n) cols));
      [done|].
    intros col Hcol Hf. apply list_elem_of_filter in Hcol as [Hn' _].
    rewrite Hf in Hn'. by injection Hn' as <-.
Qed.

(** The batch page checks the columns and selects them before it calls
    [batch_predict], which selects them again.  With a feature list
    without repetitions the page's selection changes nothing: the page
    gets what [batch_predict] gives for the uploaded frame as it is, and
    nothing at all when a column is missing. *)
Theorem streamlit_batch_page_selection_is_redundant
    st st' model metadata (fs : list string) df :
  predict.load_model_and_metadata joblib_load_model joblib_load_metadata st
  = (Ok (model, metadata), st') →
  predict.metadata_features metadata = Ok fs →
  NoDup fs →
  batch_predictions fs df st
  = match streamlit_app.missing_columns df fs with
    | [] =>
        match predict.batch_predict joblib_load_model joblib_load_metadata
                np_expm1 df st with
        | (Ok predictions, st'') => (Ok (Some predictions), st'')
        | (Raise e, st'') => (Raise e, st'')
        end
    | _ :: _ => (Ok None, st)
    end.
Proof.
  intros Hload Hfs Hnd. unfold streamlit_app.batch_predictions.
  destruct (streamlit_app.missing_columns df fs) as [|c cs] eqn:Hmissing;
    [|done].
  unfold streamlit_app.missing_columns in Hmissing.
  unfold_py. unfold predict.getitem_columns at 1. rewrite Hmissing.
  set (input_df := {| df_len := df_len df; df_data := _ |}).
  rewrite !(batch_predict_unfold joblib_load_model joblib_load_metadata
              np_expm1), Hload, Hfs.
  rewrite (getitem_columns_same_columns input_df df fs eq_refl)
    by (intros f Hf; by apply filter_label_bind).
  destruct (predict.getitem_columns df fs) as [d|e]; [|done].
  destruct model as [m|]; [|done].
  by destruct (predict.predict m d).
Qed.
End callers.

(** ** Examples of the further statements *)

Lemma fit_transform_gives_training_counts_witness :
  ∃ out,
    (utils.fit_transform (utils.__init__ "zero")
       (Frame samples.category_frame)).2 = Ok out ∧
    cell_at out 0 0
      = Some (cell_of_count
                (times_seen (CStr "A")
                   (CStr <$> ["A"; "B"; "A"; "C"; "B"; "A"]))) ∧
    (1 ≤ times_seen (CStr "A") (CStr <$> ["A"; "B"; "A"; "C"; "B"; "A"]))%nat.
Proof.
  apply (fit_transform_gives_training_counts (utils.__init__ "zero")
           samples.category_frame (Name "category")
           (CStr <$> ["A"; "B"; "A"; "C"; "B"; "A"]) 0 0 (CStr "A"));
    [by_compute|reflexivity|reflexivity|discriminate].
Defined.

Lemma fit_ignores_row_order_witness :
  utils.frequency_maps_
    (utils.fit (utils.__init__ "zero") (Frame samples.category_frame))
  = utils.frequency_maps_
      (utils.fit (utils.__init__ "zero")
         (Frame more_samples.category_frame_reversed)).
Proof.
  apply (fit_ignores_row_order (utils.__init__ "zero")
           samples.category_frame more_samples.category_frame_reversed).
  repeat constructor.
Defined.

Lemma fitted_table_is_histogram_witness :
  ∃ tbl,
    utils.frequency_maps_
      (utils.fit (utils.__init__ "zero") (Frame samples.category_frame))
      !! Name "category" = Some tbl ∧
    (∀ v, is_Some (tbl !! v)
          ↔ v ∈ CStr <$> ["A"; "B"; "A"; "C"; "B"; "A"] ∧ v ≠ CNull) ∧
    total_count tbl
    = length (filter (λ c, c ≠ CNull)
                (CStr <$> ["A"; "B"; "A"; "C"; "B"; "A"])).
Proof.
  apply (fitted_table_is_histogram (utils.__init__ "zero")
           (Frame samples.category_frame) (Name "category")
           (CStr <$> ["A"; "B"; "A"; "C"; "B"; "A"]));
    by_compute.
Defined.

Lemma missing_cell_gets_fill_value_witness :
  ∃ out,
    utils.transform
      (utils.fit (utils.__init__ "rare") (Frame samples.category_frame))
      (Frame more_samples.frame_with_missing) = Ok out ∧
    cell_at out 0 0
      = Some (cell_of_count
                (if decide (utils.handle_unknown (utils.__init__ "rare")
                            = "zero") then 0 else 1)).
Proof.
  apply (missing_cell_gets_fill_value (utils.__init__ "rare")
           (Frame samples.category_frame)
           (Frame more_samples.frame_with_missing)
           more_samples.frame_with_missing (Name "category")
           (CStr <$> ["A"; "B"; "A"; "C"; "B"; "A"]) [CNull; CStr "B"] 0 0);
    [by_compute|by_compute|reflexivity|by_compute|reflexivity|reflexivity].
Defined.

Lemma unknown_policy_behaves_as_rare_witness :
  utils.transform
    (utils.fit (utils.__init__ "ignore") (Frame samples.category_frame))
    (Frame samples.query_frame)
  = utils.transform
      {| utils.handle_unknown := "rare";
         utils.frequency_maps_ :=
           utils.frequency_maps_
             (utils.fit (utils.__init__ "ignore")
                (Frame samples.category_frame));
         utils.feature_names_in_ :=
           utils.feature_names_in_
             (utils.fit (utils.__init__ "ignore")
                (Frame samples.category_frame)) |}
      (Frame samples.query_frame).
Proof.
  apply (unknown_policy_behaves_as_rare
           (utils.fit (utils.__init__ "ignore")
              (Frame samples.category_frame))
           (Frame samples.query_frame)).
  simpl. discriminate.
Defined.

Lemma rare_policy_never_writes_zero_witness :
  ∃ out n,
    utils.transform (utils.fit_all "rare" [Frame samples.category_frame])
      (Frame samples.query_frame) = Ok out ∧
    cell_at out 1 0 = Some (cell_of_count n) ∧ (1 ≤ n)%nat.
Proof.
  apply (rare_policy_never_writes_zero "rare"
           [Frame samples.category_frame] (Frame samples.query_frame)
           samples.query_frame (Name "category") [CStr "A"; CStr "Z"]
           (value_counts (CStr <$> ["A"; "B"; "A"; "C"; "B"; "A"]))
           1 0 (CStr "Z"));
    [discriminate|reflexivity|by_compute|reflexivity|reflexivity|
     reflexivity].
Defined.

Lemma transform_values_like_frame_witness :
  utils.transform
    (utils.fit (utils.__init__ "zero") (Frame samples.category_frame))
    (Array (values more_samples.frame_with_missing))
  = utils.transform
      (utils.fit (utils.__init__ "zero") (Frame samples.category_frame))
      (Frame more_samples.frame_with_missing).
Proof.
  apply (transform_values_like_frame (utils.__init__ "zero")
           samples.category_frame more_samples.frame_with_missing).
  reflexivity.
Defined.

Lemma prepare_features_result_witness :
  df_len (single_row samples.compass_condo config.EXPECTED_FEATURES) = 1%nat ∧
  columns (single_row samples.compass_condo config.EXPECTED_FEATURES)
    = Name <$> config.EXPECTED_FEATURES ∧
  (∀ k f, config.EXPECTED_FEATURES !! k = Some f →
     ∃ v, samples.compass_condo !! f = Some v ∧
          df_data (single_row samples.compass_condo config.EXPECTED_FEATURES)
            !! k = Some (Name f, [v])).
Proof.
  apply (prepare_features_result samples.compass_condo
           (single_row samples.compass_condo config.EXPECTED_FEATURES)).
  vm_compute. reflexivity.
Defined.

Lemma extra_field_changes_nothing f :
  f ∈ config.EXPECTED_FEATURES →
  samples.compass_condo !! f
  = (<["listing_id" := CNum (Qc_of_Z 17)]> samples.compass_condo) !! f.
Proof.
  unfold config.EXPECTED_FEATURES. rewrite !elem_of_cons, elem_of_nil.
  intros [->|[->|[->|[->|[->|[->|[]]]]]]]; vm_compute; reflexivity.
Defined.

Lemma prepare_features_ignores_other_fields_witness :
  predict.prepare_features samples.compass_condo None
  = predict.prepare_features
      (<["listing_id" := CNum (Qc_of_Z 17)]> samples.compass_condo) None.
Proof.
  apply (prepare_features_ignores_other_fields samples.compass_condo
           (<["listing_id" := CNum (Qc_of_Z 17)]> samples.compass_condo)).
  exact extra_field_changes_nothing.
Defined.

Lemma predict_price_outcome_witness :
  (predict.predict_price (Ok samples.toy_model)
     (Ok samples.metadata_from_train) samples.expm1
     samples.compass_condo false predict.startup).1
  = match predict.predict samples.toy_model
            (single_row samples.compass_condo config.EXPECTED_FEATURES) with
    | Raise e => Raise e
    | Ok [] =>
        Raise (IndexError "index 0 is out of bounds for axis 0 with size 0")
    | Ok (s :: _) => Ok (if false then samples.expm1 s else s)
    end.
Proof.
  apply (predict_price_outcome
           (Ok samples.toy_model) (Ok samples.metadata_from_train)
           samples.expm1 predict.startup
           (samples.loaded samples.metadata_from_train) samples.toy_model
           (Some samples.metadata_from_train) samples.compass_condo false).
  - reflexivity.
  - exact compass_condo_is_complete.
Defined.

Lemma every_request_is_served_from_the_files_witness :
  (predict.predict_price (Ok samples.toy_model)
     (Ok samples.metadata_from_train) samples.expm1
     samples.compass_condo true
     (predict.run (Ok samples.toy_model) (Ok samples.metadata_from_train)
        samples.expm1
        [predict.Batch samples.sample_properties; predict.Single ∅ true]
        predict.startup)).1
  = price_of samples.expm1 samples.toy_model samples.compass_condo true.
Proof.
  apply (every_request_is_served_from_the_files
           (Ok samples.toy_model) (Ok samples.metadata_from_train)
           samples.expm1 samples.toy_model samples.metadata_from_train
           "XGBoost with Frequency Encoding");
    reflexivity.
Defined.

Lemma failed_model_load_is_not_cached_witness :
  (∀ input_data use_log_target,
     predict.predict_price (Raise (RaisedByLoad "FileNotFoundError"))
       (Ok samples.metadata_from_train) samples.expm1
       input_data use_log_target predict.startup
     = (Raise (RaisedByLoad "FileNotFoundError"), predict.startup)) ∧
  (∀ data,
     predict.batch_predict (Raise (RaisedByLoad "FileNotFoundError"))
       (Ok samples.metadata_from_train) samples.expm1 data predict.startup
     = (Raise (RaisedByLoad "FileNotFoundError"), predict.startup)) ∧
  predict.run (Raise (RaisedByLoad "FileNotFoundError"))
    (Ok samples.metadata_from_train) samples.expm1
    [predict.Single samples.compass_condo true;
     predict.Batch samples.sample_properties] predict.startup
  = predict.startup.
Proof.
  apply (failed_model_load_is_not_cached
           (Raise (RaisedByLoad "FileNotFoundError"))
           (Ok samples.metadata_from_train) samples.expm1 predict.startup
           (RaisedByLoad "FileNotFoundError"));
    reflexivity.
Defined.

Lemma loaded_cache_hides_the_files_witness :
  (∀ input_data use_log_target,
     predict.predict_price (Raise (RaisedByLoad "FileNotFoundError"))
       (Raise (RaisedByLoad "FileNotFoundError")) samples.expm1
       input_data use_log_target
       (samples.loaded samples.metadata_from_train)
     = predict.predict_price (Ok samples.toy_model)
         (Ok samples.metadata_from_train) samples.expm1
         input_data use_log_target
         (samples.loaded samples.metadata_from_train)) ∧
  (∀ data,
     predict.batch_predict (Raise (RaisedByLoad "FileNotFoundError"))
       (Raise (RaisedByLoad "FileNotFoundError")) samples.expm1 data
       (samples.loaded samples.metadata_from_train)
     = predict.batch_predict (Ok samples.toy_model)
         (Ok samples.metadata_from_train) samples.expm1 data
         (samples.loaded samples.metadata_from_train)).
Proof.
  apply (loaded_cache_hides_the_files
           (Ok samples.toy_model) (Ok samples.metadata_from_train)
           samples.expm1
           (Raise (RaisedByLoad "FileNotFoundError"))
           (Raise (RaisedByLoad "FileNotFoundError"))
           (samples.loaded samples.metadata_from_train)
           samples.toy_model samples.metadata_from_train);
    reflexivity.
Defined.

Lemma batch_predict_missing_column_witness :
  ∃ msg,
    predict.batch_predict (Ok samples.toy_model)
      (Ok samples.metadata_from_train) samples.expm1
      samples.broker_frame predict.startup
    = (Raise (KeyError msg), samples.loaded samples.metadata_from_train) ∧
    predict.predict_calls (samples.loaded samples.metadata_from_train)
    = predict.predict_calls predict.startup.
Proof.
  apply (batch_predict_missing_column
           (Ok samples.toy_model) (Ok samples.metadata_from_train)
           samples.expm1 predict.startup
           (samples.loaded samples.metadata_from_train)
           (Some samples.toy_model) samples.metadata_from_train
           config.EXPECTED_FEATURES "type" samples.broker_frame);
    [reflexivity|reflexivity|by_compute|by_compute].
Defined.

Lemma price_column_is_no_feature f :
  f ∈ config.EXPECTED_FEATURES →
  filter (λ col : Label * list Cell, col.1 = Name f)
    (df_data samples.sample_properties)
  = filter (λ col : Label * list Cell, col.1 = Name f)
      (df_data more_samples.sample_properties_with_price).
Proof.
  unfold config.EXPECTED_FEATURES. rewrite !elem_of_cons, elem_of_nil.
  intros [->|[->|[->|[->|[->|[->|[]]]]]]]; vm_compute; reflexivity.
Defined.

Lemma batch_predict_ignores_other_columns_witness :
  predict.batch_predict (Ok samples.toy_model)
    (Ok samples.metadata_from_train) samples.expm1
    samples.sample_properties predict.startup
  = predict.batch_predict (Ok samples.toy_model)
      (Ok samples.metadata_from_train) samples.expm1
      more_samples.sample_properties_with_price predict.startup.
Proof.
  apply (batch_predict_ignores_other_columns
           (Ok samples.toy_model) (Ok samples.metadata_from_train)
           samples.expm1 predict.startup
           (samples.loaded samples.metadata_from_train)
           (Some samples.toy_model) (Some samples.metadata_from_train)
           config.EXPECTED_FEATURES);
    [reflexivity|reflexivity|reflexivity|exact price_column_is_no_feature].
Defined.

Lemma cached_predict_agrees_with_predict_price_witness :
  (predict.cached_predict (Ok samples.toy_model)
     (Ok samples.metadata_from_train) samples.expm1
     more_samples.compass_condo_tuple
     (predict.serve_cached (Ok samples.toy_model)
        (Ok samples.metadata_from_train) samples.expm1
        [more_samples.compass_condo_tuple; []]
        {| predict.process := samples.loaded samples.metadata_from_train;
           predict.lru := [] |})).1
  = (predict.predict_price (Ok samples.toy_model)
       (Ok samples.metadata_from_train) samples.expm1
       (predict.tuple_to_dict more_samples.compass_condo_tuple) true
       (samples.loaded samples.metadata_from_train)).1 ∧
  (length
     (predict.lru
        (predict.serve_cached (Ok samples.toy_model)
           (Ok samples.metadata_from_train) samples.expm1
           [more_samples.compass_condo_tuple; []]
           {| predict.process := samples.loaded samples.metadata_from_train;
              predict.lru := [] |})) ≤ 1000)%nat.
Proof.
  apply (cached_predict_agrees_with_predict_price
           (Ok samples.toy_model) (Ok samples.metadata_from_train)
           samples.expm1 (samples.loaded samples.metadata_from_train)
           samples.toy_model samples.metadata_from_train);
    reflexivity.
Defined.

Lemma streamlit_category_vs_get_price_category_witness :
  streamlit_app.price_category (Some (FNum (Qc_of_Z 450000)))
    = Some (predict.get_price_category (FNum (Qc_of_Z 450000)))
  ↔ ¬ ((float_ge (FNum (Qc_of_Z 450000)) 400000 = true ∧
        float_lt (FNum (Qc_of_Z 450000)) 500000 = true) ∨
       (float_ge (FNum (Qc_of_Z 450000)) 1500000 = true ∧
        float_lt (FNum (Qc_of_Z 450000)) 2000000 = true)).
Proof.
  apply (streamlit_category_vs_get_price_category (FNum (Qc_of_Z 450000)));
    [discriminate|reflexivity].
Defined.

Lemma flask_predict_checks_features_first_witness :
  flask_app.predict (Ok samples.toy_model) (Ok samples.metadata_from_train)
    samples.expm1 (λ _, Ok ()) more_samples.flask_globals
    (flask_app.JsonObject more_samples.beds_only) predict.startup
  = (flask_app.Error 400
       ("Missing required features: " +:+
        repr_list (filter (λ f, more_samples.beds_only !! f = None)
                     config.EXPECTED_FEATURES)), predict.startup) ∧
  "type" ∈ filter (λ f, more_samples.beds_only !! f = None)
             config.EXPECTED_FEATURES.
Proof.
  apply (flask_predict_checks_features_first
           (Ok samples.toy_model) (Ok samples.metadata_from_train)
           samples.expm1 (λ _, Ok ()) more_samples.flask_globals
           samples.toy_model samples.metadata_from_train
           more_samples.beds_only "type" predict.startup);
    [reflexivity|reflexivity|by_compute|by_compute|reflexivity].
Defined.

Lemma flask_predict_needs_data_info_witness :
  (∀ body st,
     flask_app.status_code
       (flask_app.predict (Ok samples.toy_model)
          (Ok samples.metadata_from_train) samples.expm1 (λ _, Ok ())
          more_samples.flask_globals body st).1 ≠ 200%nat) ∧
  (∀ m name input_data st price st',
     flask_app.model more_samples.flask_globals = Some m →
     predict.metadata_name samples.metadata_from_train = Ok name →
     (∀ f, f ∈ config.EXPECTED_FEATURES → is_Some (input_data !! f)) →
     predict.predict_price (Ok samples.toy_model)
       (Ok samples.metadata_from_train) samples.expm1
       input_data true st = (Ok price, st') →
     flask_app.predict (Ok samples.toy_model)
       (Ok samples.metadata_from_train) samples.expm1 (λ _, Ok ())
       more_samples.flask_globals (flask_app.JsonObject input_data) st
     = (flask_app.Error 500 "Prediction error: 'data_info'", st')).
Proof.
  apply (flask_predict_needs_data_info
           (Ok samples.toy_model) (Ok samples.metadata_from_train)
           samples.expm1 (λ _, Ok ()) more_samples.flask_globals
           samples.metadata_from_train);
    reflexivity.
Defined.

Lemma streamlit_batch_page_selection_is_redundant_witness :
  streamlit_app.batch_predictions (Ok samples.toy_model)
    (Ok samples.metadata_from_train) samples.expm1
    config.EXPECTED_FEATURES more_samples.sample_properties_with_price
    predict.startup
  = match streamlit_app.missing_columns
            more_samples.sample_properties_with_price
            config.EXPECTED_FEATURES with
    | [] =>
        match predict.batch_predict (Ok samples.toy_model)
                (Ok samples.metadata_from_train) samples.expm1
                more_samples.sample_properties_with_price
                predict.startup with
        | (Ok predictions, st'') => (Ok (Some predictions), st'')
        | (Raise e, st'') => (Raise e, st'')
        end
    | _ :: _ => (Ok None, predict.startup)
    end.
Proof.
  apply (streamlit_batch_page_selection_is_redundant
           (Ok samples.toy_model) (Ok samples.metadata_from_train)
           samples.expm1 predict.startup
           (samples.loaded samples.metadata_from_train)
           (Some samples.toy_model) (Some samples.metadata_from_train)
           config.EXPECTED_FEATURES
           more_samples.sample_properties_with_price);
    [reflexivity|reflexivity|by_compute].
Defined.

Lemma training_frame_has_categorical_columns c :
  c ∈ train.categorical_features →
  Name c ∈ columns more_samples.training_frame.
Proof.
  unfold train.categorical_features. rewrite !elem_of_cons, elem_of_nil.
  intros [->|[->|[->|[]]]]; by_compute.
Defined.

Lemma create_preprocessor_routes_every_feature_witness :
  ∃ transformers,
    train.create_preprocessor more_samples.training_frame = Ok transformers ∧
    concat (transformers.*2) ≡ₚ config.EXPECTED_FEATURES ∧
    (∀ t, t ∈ transformers → t.2 ≠ []) ∧
    (∀ c s, c ∈ train.categorical_features →
       (Name c, s) ∈ df_data more_samples.training_frame →
       ((∃ cols, ("categorical_high", train.FrequencyEncoder "zero", cols)
                   ∈ transformers ∧ c ∈ cols)
        ↔ (50 < train.nunique s)%nat)).
Proof.
  apply (proj1 (create_preprocessor_routes_every_feature
                  more_samples.training_frame ltac:(by_compute))).
  exact training_frame_has_categorical_columns.
Defined.

Lemma streamlit_prepare_features_vs_predict_witness :
  streamlit_app.prepare_features samples.compass_condo
    config.EXPECTED_FEATURES
  = predict.prepare_features samples.compass_condo None ∧
  ∃ msg msg',
    streamlit_app.prepare_features more_samples.beds_only
      config.EXPECTED_FEATURES = Raise (KeyError msg) ∧
    predict.prepare_features more_samples.beds_only None
    = Raise (ValueError msg').
Proof.
  split.
  - apply (proj1 (streamlit_prepare_features_vs_predict
                    samples.compass_condo)).
    exact compass_condo_is_complete.
  - apply (proj2 (streamlit_prepare_features_vs_predict
                    more_samples.beds_only)).
    exists "type". split; [by_compute|reflexivity].
Defined.

Lemma cached_predict_store_witness :
  ∃ v,
    (predict.cached_predict (Ok samples.toy_model)
       (Ok samples.metadata_from_train) samples.expm1
       more_samples.compass_condo_tuple
       {| predict.process := predict.startup; predict.lru := [] |}).1
    = Ok v ∧
    let sv' :=
      (predict.cached_predict (Ok samples.toy_model)
         (Ok samples.metadata_from_train) samples.expm1
         more_samples.compass_condo_tuple
         {| predict.process := predict.startup; predict.lru := [] |}).2 in
    (predict.cached_predict (Ok samples.toy_model)
       (Ok samples.metadata_from_train) samples.expm1
       more_samples.compass_condo_tuple sv').1 = Ok v ∧
    predict.process
      (predict.cached_predict (Ok samples.toy_model)
         (Ok samples.metadata_from_train) samples.expm1
         more_samples.compass_condo_tuple sv').2
    = predict.process sv'.
Proof.
  eexists. split; [reflexivity|].
  apply (proj1 (cached_predict_store (Ok samples.toy_model)
                  (Ok samples.metadata_from_train) samples.expm1
                  {| predict.process := predict.startup; predict.lru := [] |}
                  more_samples.compass_condo_tuple)).
  reflexivity.
Defined.


Lemma fit_only_adds_tables_witness :
  dom (utils.frequency_maps_
         (utils.fit
            (utils.fit (utils.__init__ "zero") (Frame samples.category_frame))
            (Frame samples.broker_frame)))
  = dom (utils.frequency_maps_
           (utils.fit (utils.__init__ "zero") (Frame samples.category_frame)))
    ∪ list_to_set (columns (utils.fit_frame (Frame samples.broker_frame))).
Proof.
  apply (fit_only_adds_tables
           (utils.fit (utils.__init__ "zero") (Frame samples.category_frame))
           (Frame samples.broker_frame)).
  by_compute.
Defined.

Lemma transform_raises_only_on_width_mismatch_witness :
  (∃ e, utils.transform
          (utils.fit (utils.__init__ "zero") (Frame samples.query_frame))
          (Array more_samples.category_array) = Raise e)
  ↔ ∃ a names,
      Array more_samples.category_array = Array a ∧
      utils.feature_names_in_
        (utils.fit (utils.__init__ "zero") (Frame samples.query_frame))
      = Some names ∧
      length names ≠ shape1 a.
Proof.
  apply (transform_raises_only_on_width_mismatch
           (utils.fit (utils.__init__ "zero") (Frame samples.query_frame))
           (Array more_samples.category_array)).
  by_compute.
Defined.
